(** * Vida de Capivara: the simulation core of [App]

    A shallow embedding of the per-frame physics resolver, the stat model,
    the thought gate and the timers of the React component [App], with the
    data types of [types.ts].

    Numbers.  JavaScript numbers are binary64 doubles.  Every finite double
    is a rational, and the model carries numbers as rationals [Q].  The
    arithmetic of the position (steps of 3 and clamps, on half-integers) is
    exact on doubles, and so are the comparisons.  The two places where the
    source rounds before it compares, the water line
    [window.innerHeight * 0.7] and the distance to a food item, are computed
    in binary64 (module [Double], over the Standard Library's [SpecFloat]).
    The steps of the stat model (0.02, 0.1, 0.05, 0.01) are taken as exact
    rationals, which the doubles of the source follow up to the rounding of
    each step.  Millisecond timestamps ([Date.now()]) are integers [Z].

    React.  A setter called with a value or an updater enqueues an update;
    updaters run when React processes the queue for the next render, updates
    are applied in the order they were enqueued, and the setter calls an
    updater performs while it runs are enqueued behind the updates that are
    already pending.  The closures [updatePhysics], [updateStats] and
    [triggerThought] read the [capyState], [direction] and [stats] of the
    render in which they were created, that is, the values committed when
    the frame starts. *)

From Stdlib Require Import QArith Qround ZArith Lia List Bool SpecFloat.
From Stdlib Require Import Lqa.
From stdpp Require Import base decidable gmap strings.
Import ListNotations.

Local Open Scope Q_scope.

(** ** [Math] *)

Module Math.

Definition max (a b : Q) : Q := if Qlt_le_dec a b then b else a.
Definition min (a b : Q) : Q := if Qlt_le_dec b a then b else a.

(** [ltb a b] is the comparison [a < b]. *)
Definition ltb (a b : Q) : bool := if Qlt_le_dec a b then true else false.

End Math.

(** ** Binary64 *)

Module Double.

Definition prec : Z := 53.
Definition emax : Z := 1024.

Definition ofZ (z : Z) : spec_float := binary_normalize prec emax z 0 false.

(** The double of a rational: the rational itself when it is a double, and
    otherwise, for a numerator and a denominator below [2^53], the nearest
    double, as a decimal literal is read. *)
Definition ofQ (q : Q) : spec_float :=
  let r := Qred q in
  SFdiv prec emax (ofZ (Qnum r)) (ofZ (Zpos (Qden r))).

(** The rational a finite double is. *)
Definition toQ (f : spec_float) : Q :=
  match f with
  | S754_finite s m e =>
      (if s then - inject_Z (Zpos m) else inject_Z (Zpos m)) * Qpower 2 e
  | _ => 0
  end.

Definition add : spec_float -> spec_float -> spec_float := SFadd prec emax.
Definition sub : spec_float -> spec_float -> spec_float := SFsub prec emax.
Definition mul : spec_float -> spec_float -> spec_float := SFmul prec emax.
Definition sqrt : spec_float -> spec_float := SFsqrt prec emax.
Definition ltb : spec_float -> spec_float -> bool := SFltb.

End Double.

(** The double a decimal literal denotes, as a rational. *)
Definition double (q : Q) : Q := Double.toQ (Double.ofQ q).

(** ** [types.ts] *)

Record Position := mkPosition { x : Q; y : Q }.

Inductive CapyState :=
  IDLE | WALKING | SWIMMING | EATING | SLEEPING | MEDITATING.

Record Stats := mkStats { hunger : Q; chill : Q; energy : Q }.

Inductive FoodType := ORANGE | WATERMELON.

(** The fields [x], [y] and [type] of a [FoodItem] carry a prefix, the record
    projections of [Position] being global names. *)
Record FoodItem := mkFoodItem {
  id : string;
  food_x : Q;
  food_y : Q;
  food_type : FoodType
}.

Record Thought := mkThought { text : string; timestamp : Z }.

(** ['left' | 'right'] *)
Inductive Direction := Left | Right.

#[global] Instance CapyState_eq_dec : EqDecision CapyState.
Proof. solve_decision. Defined.

#[global] Instance Direction_eq_dec : EqDecision Direction.
Proof. solve_decision. Defined.

#[global] Instance FoodType_eq_dec : EqDecision FoodType.
Proof. solve_decision. Defined.

(** ** Constants *)

Definition MOVEMENT_SPEED : Q := 3.
Definition API_DEBOUNCE_MS : Z := 5000.

(** [window.innerWidth] and [window.innerHeight], read anew in every frame. *)
Record Window := mkWindow { innerWidth : Q; innerHeight : Q }.

(** [WATER_LEVEL_Y] is computed once, from the height of the window when the
    module is loaded: the binary64 product [window.innerHeight * 0.7]. *)
Definition WATER_LEVEL_Y (loadHeight : Q) : Q :=
  Double.toQ (Double.mul (Double.ofQ loadHeight) (Double.ofQ 0.7)).

Arguments WATER_LEVEL_Y : simpl never.

(** [keysPressed.current.has(k)] *)
Definition has (keysPressed : gset string) (k : string) : bool :=
  bool_decide (k ∈ keysPressed).

(** ** The physics resolver: the updater [updatePhysics] passes to [setPos] *)

(** The locals of the updater when it returns. *)
Record Physics := mkPhysics {
  newX : Q;
  newY : Q;
  isMoving : bool;
  newDirection : Direction;
  nextState : CapyState;
  isInWater : bool
}.

(** [capyState !== SLEEPING && capyState !== MEDITATING && capyState !== EATING] *)
Definition unlocked (capyState : CapyState) : bool :=
  bool_decide (capyState ≠ SLEEPING) && bool_decide (capyState ≠ MEDITATING)
  && bool_decide (capyState ≠ EATING).

Section Physics.

Variable loadHeight : Q.
Variables (capyState : CapyState) (direction : Direction).
Variables (keysPressed : gset string) (window : Window).

(** Movement logic, lines 62 to 81: the position, the direction and the
    movement flag before the boundaries are applied. *)
Definition movement (currentPos : Position) : Q * Q * bool * Direction :=
  let newX := x currentPos in
  let newY := y currentPos in
  let isMoving := false in
  let newDirection := direction in
  if unlocked capyState then
    let newY :=
      if has keysPressed "ArrowUp" || has keysPressed "w"
      then newY - MOVEMENT_SPEED else newY in
    let newY :=
      if has keysPressed "ArrowDown" || has keysPressed "s"
      then newY + MOVEMENT_SPEED else newY in
    let '(newX, newDirection, isMoving) :=
      if has keysPressed "ArrowLeft" || has keysPressed "a"
      then (newX - MOVEMENT_SPEED, Left, true)
      else (newX, newDirection, isMoving) in
    let '(newX, newDirection, isMoving) :=
      if has keysPressed "ArrowRight" || has keysPressed "d"
      then (newX + MOVEMENT_SPEED, Right, true)
      else (newX, newDirection, isMoving) in
    (newX, newY, isMoving, newDirection)
  else (newX, newY, isMoving, newDirection).

(** Boundaries and the state derived from position and movement, lines 83 to
    103. *)
Definition physics (currentPos : Position) : Physics :=
  let '(newX, newY, isMoving, newDirection) := movement currentPos in
  let newX := Math.max 50 (Math.min (innerWidth window - 50) newX) in
  let newY := Math.max 50 (Math.min (innerHeight window - 50) newY) in
  let nextState := capyState in
  let isInWater := Math.ltb (WATER_LEVEL_Y loadHeight) newY in
  let nextState :=
    if unlocked capyState then
      if isInWater then SWIMMING
      else if isMoving then WALKING
      else IDLE
    else nextState in
  mkPhysics newX newY isMoving newDirection nextState isInWater.

End Physics.

(** ** Food collision: the updater passed to [setFood] *)

(** What the callback of [currentFood.filter] calls when it eats an item. *)
Inductive Call :=
| SetCapyState (s : CapyState)
| SetStats (f : Stats -> Stats)
| SetTimeout (s : CapyState) (delay : Z)
    (** [setTimeout(() => setCapyState(s), delay)] *)
| TriggerThought (forcedState : option CapyState).

(** [dist = Math.sqrt(dx*dx + dy*dy)], every operation in binary64. *)
Definition dist (newX newY : Q) (f : FoodItem) : spec_float :=
  let dx := Double.sub (Double.ofQ (food_x f)) (Double.ofQ newX) in
  let dy := Double.sub (Double.ofQ (food_y f)) (Double.ofQ newY) in
  Double.sqrt (Double.add (Double.mul dx dx) (Double.mul dy dy)).

(** [dist < 50] *)
Definition eats (newX newY : Q) (f : FoodItem) : bool :=
  Double.ltb (dist newX newY f) (Double.ofQ 50).

Arguments dist : simpl never.
Arguments eats : simpl never.

(** The updater of [setStats] at lines 115 to 119. *)
Definition eatStats (f : FoodItem) (s : Stats) : Stats :=
  {| hunger :=
       Math.min 100
         (hunger s + (if bool_decide (food_type f = WATERMELON) then 30 else 15));
     chill := chill s;
     energy := Math.min 100 (energy s + 5) |}.

Definition eat (isInWater : bool) (f : FoodItem) : list Call :=
  [ SetCapyState EATING;
    SetStats (eatStats f);
    SetTimeout (if isInWater then SWIMMING else IDLE) 1000;
    TriggerThought (Some EATING) ].

(** [currentFood.filter(f => ...)]: the remaining food, and the calls of the
    callback in the order of the collection. *)
Fixpoint filterFood (newX newY : Q) (isInWater : bool)
    (currentFood : list FoodItem) : list FoodItem * list Call :=
  match currentFood with
  | [] => ([], [])
  | f :: rest =>
      let '(remainingFood, calls) := filterFood newX newY isInWater rest in
      if eats newX newY f
      then (remainingFood, eat isInWater f ++ calls)
      else (f :: remainingFood, calls)
  end.

(** The setter calls of the position updater, in the order it makes them. *)
Inductive Update :=
| SetDirection (f : Direction -> Direction)
| SetFood (f : list FoodItem -> list FoodItem * list Call)
| Direct (c : Call).

(** [updatePhysics]: the new position and the updates the updater issues. *)
Definition updatePhysics (loadHeight : Q) (capyState : CapyState)
    (direction : Direction) (keysPressed : gset string) (window : Window)
    (currentPos : Position) : Position * list Update :=
  let p := physics loadHeight capyState direction keysPressed window currentPos in
  ( {| x := newX p; y := newY p |},
    [ SetDirection
        (fun prev => if bool_decide (prev ≠ newDirection p) then newDirection p else prev);
      SetFood (filterFood (newX p) (newY p) (isInWater p)) ]
    ++ (if bool_decide (nextState p ≠ capyState)
        then [Direct (SetCapyState (nextState p))] else []) ).

(** ** The stat model: the updater [updateStats] passes to [setStats] *)

Definition updateStats (capyState : CapyState) (prev : Stats) : Stats :=
  let hunger := hunger prev in
  let chill := chill prev in
  let energy := energy prev in
  let hunger := Math.max 0 (hunger - 0.02) in
  let energy :=
    if bool_decide (capyState = SLEEPING) then Math.min 100 (energy + 0.1)
    else if bool_decide (capyState = WALKING) || bool_decide (capyState = SWIMMING)
         then Math.max 0 (energy - 0.01)
         else energy in
  let chill :=
    if bool_decide (capyState = MEDITATING) then Math.min 100 (chill + 0.1) else chill in
  let chill :=
    if bool_decide (capyState = SWIMMING) then Math.min 100 (chill + 0.05) else chill in
  let chill := if Math.ltb hunger 20 then Math.max 0 (chill - 0.05) else chill in
  {| hunger := hunger; chill := chill; energy := energy |}.

(** ** The component: its state, its refs, and what the host holds for it *)

(** A call of [generateCapybaraThought] that has not settled yet. *)
Record Request := mkRequest {
  stateForAi : CapyState;
  statsForAi : Stats;
  requestedAt : Z
}.

Record App := mkApp {
  pos : Position;
  direction : Direction;
  capyState : CapyState;
  stats : Stats;
  food : list FoodItem;
  thought : option Thought;
  isAiLoading : bool;
  lastAiCallTime : Z;
    (** [lastAiCallTime.current] *)
  timers : list (Z * CapyState);
    (** pending [setTimeout]s: the time each is due, the state it writes *)
  inFlight : list Request
}.

Definition set_pos (v : Position) (a : App) : App :=
  mkApp v (direction a) (capyState a) (stats a) (food a) (thought a)
    (isAiLoading a) (lastAiCallTime a) (timers a) (inFlight a).
Definition set_direction (v : Direction) (a : App) : App :=
  mkApp (pos a) v (capyState a) (stats a) (food a) (thought a)
    (isAiLoading a) (lastAiCallTime a) (timers a) (inFlight a).
Definition set_capyState (v : CapyState) (a : App) : App :=
  mkApp (pos a) (direction a) v (stats a) (food a) (thought a)
    (isAiLoading a) (lastAiCallTime a) (timers a) (inFlight a).
Definition set_stats (v : Stats) (a : App) : App :=
  mkApp (pos a) (direction a) (capyState a) v (food a) (thought a)
    (isAiLoading a) (lastAiCallTime a) (timers a) (inFlight a).
Definition set_food (v : list FoodItem) (a : App) : App :=
  mkApp (pos a) (direction a) (capyState a) (stats a) v (thought a)
    (isAiLoading a) (lastAiCallTime a) (timers a) (inFlight a).
Definition set_thought (v : option Thought) (a : App) : App :=
  mkApp (pos a) (direction a) (capyState a) (stats a) (food a) v
    (isAiLoading a) (lastAiCallTime a) (timers a) (inFlight a).
Definition set_isAiLoading (v : bool) (a : App) : App :=
  mkApp (pos a) (direction a) (capyState a) (stats a) (food a) (thought a)
    v (lastAiCallTime a) (timers a) (inFlight a).
Definition set_lastAiCallTime (v : Z) (a : App) : App :=
  mkApp (pos a) (direction a) (capyState a) (stats a) (food a) (thought a)
    (isAiLoading a) v (timers a) (inFlight a).
Definition set_timers (v : list (Z * CapyState)) (a : App) : App :=
  mkApp (pos a) (direction a) (capyState a) (stats a) (food a) (thought a)
    (isAiLoading a) (lastAiCallTime a) v (inFlight a).
Definition set_inFlight (v : list Request) (a : App) : App :=
  mkApp (pos a) (direction a) (capyState a) (stats a) (food a) (thought a)
    (isAiLoading a) (lastAiCallTime a) (timers a) v.

(** The [useState] and [useRef] initial values. *)
Definition initial (window : Window) : App :=
  {| pos := {| x := innerWidth window / 2; y := innerHeight window / 2 |};
     direction := Right;
     capyState := IDLE;
     stats := {| hunger := 80; chill := 50; energy := 90 |};
     food := [];
     thought := None;
     isAiLoading := false;
     lastAiCallTime := 0;
     timers := [];
     inFlight := [] |}.

(** ** The thought gate *)

(** [!forcedState]: every [CapyState] is a non-empty string, so only
    [undefined] is falsy. *)
Definition not_ (forcedState : option CapyState) : bool :=
  match forcedState with Some _ => false | None => true end.

(** [triggerThought] up to its [await]: [capyState] and [stats] are the
    values the closure captured, [now] is [Date.now()]. *)
Definition triggerThought (capyState : CapyState) (stats : Stats) (now : Z)
    (forcedState : option CapyState) (a : App) : App :=
  if (now - lastAiCallTime a <? API_DEBOUNCE_MS)%Z && not_ forcedState then a
  else
    let a := set_isAiLoading true a in
    let a := set_lastAiCallTime now a in
    let stateForAi := match forcedState with Some s => s | None => capyState end in
    set_inFlight (inFlight a ++ [mkRequest stateForAi stats now]) a.

(** How the promise of [generateCapybaraThought] settles. *)
Inductive Settled := Fulfilled (text : string) | Rejected.

(** [triggerThought] after its [await].  There is no [try]: when the promise
    is rejected the function leaves through the [await], and neither
    [setThought] nor [setIsAiLoading(false)] is reached. *)
Definition triggerThought_resume (r : Request) (outcome : Settled) (a : App) : App :=
  match outcome with
  | Fulfilled text =>
      let a := set_thought (Some {| text := text; timestamp := requestedAt r |}) a in
      set_isAiLoading false a
  | Rejected => a
  end.

(** ** One frame *)

Section Frame.

(** The values the closures of the frame captured, and [Date.now()]. *)
Variables (capyState0 : CapyState) (stats0 : Stats) (now : Z).

Definition runCall (c : Call) (a : App) : App :=
  match c with
  | SetCapyState s => set_capyState s a
  | SetStats f => set_stats (f (stats a)) a
  | SetTimeout s delay => set_timers (timers a ++ [((now + delay)%Z, s)]) a
  | TriggerThought forcedState => triggerThought capyState0 stats0 now forcedState a
  end.

Definition runCalls (calls : list Call) (a : App) : App :=
  fold_left (fun a c => runCall c a) calls a.

(** Applies the updates the position updater issued, in order.  React calls
    the updater given to [setFood] once the position updater has returned:
    the calls the food updater makes are enqueued behind the updates the
    position updater issued, among them the [setCapyState(nextState)] of
    line 130. *)
Fixpoint runUpdates (updates : list Update) (later : list Call) (a : App) : App :=
  match updates with
  | [] => runCalls later a
  | SetDirection f :: rest => runUpdates rest later (set_direction (f (direction a)) a)
  | SetFood f :: rest =>
      let '(remainingFood, calls) := f (food a) in
      runUpdates rest (later ++ calls) (set_food remainingFood a)
  | Direct c :: rest => runUpdates rest later (runCall c a)
  end.

End Frame.

(** The body of [loop]: [updatePhysics(); updateStats();].  The two updaters
    are enqueued in this order, [setPos] first; the updates the position
    updater issues follow the stats updater. *)
Definition tick (loadHeight : Q) (keysPressed : gset string) (window : Window)
    (now : Z) (a : App) : App :=
  let capyState0 := capyState a in
  let '(newPos, updates) :=
    updatePhysics loadHeight capyState0 (direction a) keysPressed window (pos a) in
  let a1 := set_pos newPos a in
  let a2 := set_stats (updateStats capyState0 (stats a1)) a1 in
  runUpdates capyState0 (stats a) now updates [] a2.

(** ** Timers, actions and the spawner *)

(** The timers due at [now] fire, in the order they were set. *)
Definition fireTimers (now : Z) (a : App) : App :=
  let due := List.filter (fun t => (fst t <=? now)%Z) (timers a) in
  let pending := List.filter (fun t => negb (fst t <=? now)%Z) (timers a) in
  fold_left (fun a t => set_capyState (snd t) a) due (set_timers pending a).

(** The meditate button is disabled while
    [isAiLoading || capyState === SWIMMING || capyState === SLEEPING]. *)
Definition meditateDisabled (a : App) : bool :=
  isAiLoading a || bool_decide (capyState a = SWIMMING)
  || bool_decide (capyState a = SLEEPING).

Definition handleMeditate (now : Z) (a : App) : App :=
  if bool_decide (capyState a = MEDITATING) then set_capyState IDLE a
  else
    let a' := set_capyState MEDITATING a in
    triggerThought (capyState a) (stats a) now (Some MEDITATING) a'.

(** The sleep button is disabled while
    [capyState === SWIMMING || capyState === MEDITATING]. *)
Definition sleepDisabled (a : App) : bool :=
  bool_decide (capyState a = SWIMMING) || bool_decide (capyState a = MEDITATING).

Definition handleSleep (a : App) : App :=
  if bool_decide (capyState a = SLEEPING) then set_capyState IDLE a
  else set_capyState SLEEPING a.

(** [setFood(prev => [...prev, newFood])] *)
Definition spawnFood (newFood : FoodItem) (a : App) : App :=
  set_food (food a ++ [newFood]) a.

(** What can happen to the component. *)
Inductive Event :=
| Frame (keysPressed : gset string) (window : Window) (now : Z)
| Timers (now : Z)
| ClickMeditate (now : Z)
| ClickSleep
| Spawn (newFood : FoodItem)
| Settle (n : nat) (outcome : Settled).
    (** the [n]-th call in flight settles *)

Definition step (loadHeight : Q) (a : App) (e : Event) : App :=
  match e with
  | Frame keysPressed window now => tick loadHeight keysPressed window now a
  | Timers now => fireTimers now a
  | ClickMeditate now => if meditateDisabled a then a else handleMeditate now a
  | ClickSleep => if sleepDisabled a then a else handleSleep a
  | Spawn newFood => spawnFood newFood a
  | Settle n outcome =>
      match nth_error (inFlight a) n with
      | Some r =>
          let a' := set_inFlight (firstn n (inFlight a) ++ skipn (S n) (inFlight a)) a in
          triggerThought_resume r outcome a'
      | None => a
      end
  end.

Definition run (loadHeight : Q) (events : list Event) (a : App) : App :=
  fold_left (step loadHeight) events a.

(** ** Notions the properties are stated with *)

(** The four key tests of the movement logic. *)
Definition pressedUp (keysPressed : gset string) : bool :=
  has keysPressed "ArrowUp" || has keysPressed "w".
Definition pressedDown (keysPressed : gset string) : bool :=
  has keysPressed "ArrowDown" || has keysPressed "s".
Definition pressedLeft (keysPressed : gset string) : bool :=
  has keysPressed "ArrowLeft" || has keysPressed "a".
Definition pressedRight (keysPressed : gset string) : bool :=
  has keysPressed "ArrowRight" || has keysPressed "d".

(** The items the food updater eats at a position. *)
Definition eaten (newX newY : Q) (currentFood : list FoodItem) : list FoodItem :=
  List.filter (eats newX newY) currentFood.

(** The exact square of the Euclidean distance between the creature and a
    food item. *)
Definition dist2 (p : Position) (f : FoodItem) : Q :=
  (food_x f - x p) * (food_x f - x p) + (food_y f - y p) * (food_y f - y p).

(** Each stat lies within [0, 100]. *)
Definition stats_ok (s : Stats) : Prop :=
  (0 <= hunger s /\ hunger s <= 100)
  /\ (0 <= chill s /\ chill s <= 100)
  /\ (0 <= energy s /\ energy s <= 100).

(** The values a frame writes to [capyState], in the order the writes are
    applied. *)
Definition callWrites (c : Call) : list CapyState :=
  match c with SetCapyState s => [s] | _ => [] end.

Fixpoint updateWrites (updates : list Update) (later : list Call)
    (currentFood : list FoodItem) : list CapyState :=
  match updates with
  | [] => flat_map callWrites later
  | SetDirection _ :: rest => updateWrites rest later currentFood
  | SetFood f :: rest =>
      let '(remainingFood, calls) := f currentFood in
      updateWrites rest (later ++ calls) remainingFood
  | Direct c :: rest => callWrites c ++ updateWrites rest later currentFood
  end.

Definition stateWrites (loadHeight : Q) (keysPressed : gset string)
    (window : Window) (a : App) : list CapyState :=
  updateWrites
    (snd (updatePhysics loadHeight (capyState a) (direction a) keysPressed window (pos a)))
    [] (food a).

(** [triggerThought] took [a] to [a'] by sending one more request to the
    text generation. *)
Definition dispatched (a a' : App) : Prop :=
  exists r : Request, inFlight a' = inFlight a ++ [r].

(** A position within the margins of a window, and an event that leaves the
    window as it is. *)
Definition within_margins (window : Window) (p : Position) : Prop :=
  (50 <= x p /\ x p <= innerWidth window - 50)
  /\ (50 <= y p /\ y p <= innerHeight window - 50).

Definition in_window (window : Window) (e : Event) : Prop :=
  match e with Frame _ window' _ => window' = window | _ => True end.

(** After a consumption at time [now], an event that comes before the timer
    of that consumption is due: later frames have later times, and the
    timers have not run at [now + 1000] or later yet. *)
Definition before_unlock (now : Z) (e : Event) : Prop :=
  match e with
  | Frame _ _ t => (now < t)%Z
  | Timers t => (t < now + 1000)%Z
  | _ => True
  end.

(** The timer [(due, s)] is pending, and no timer set after it is due
    before it. *)
Definition unlock_pending (due : Z) (s : CapyState) (l : list (Z * CapyState)) : Prop :=
  exists earlier later : list (Z * CapyState),
    l = earlier ++ (due, s) :: later /\ Forall (fun t => (due < fst t)%Z) later.


(** ** Scenarios *)

(** A world of 800 by 600, the water starting at 420, and the creature at
    (100, 100) with an orange 20 units to its right. *)
Definition world : Window := mkWindow 800 600.

Definition orange : FoodItem := mkFoodItem "orange" 120 100 ORANGE.

Definition scenario : App :=
  set_food [orange] (set_pos (mkPosition 100 100) (initial world)).

(** The same, the creature asleep. *)
Definition asleep : App := set_capyState SLEEPING scenario.

(** The creature at the upper margin, and in the middle of the world. *)
Definition at_top : App := set_pos (mkPosition 400 50) (initial world).

Definition in_the_middle : App := set_pos (mkPosition 400 300) (initial world).

(** An orange at exactly 50 units from the creature of the scenario, and
    one just inside the circle of radius 50 around (620, 390), where the
    spawner puts it for the draws 0.8085763906519414 and
    0.7842161572278454. *)
Definition orange_at_50 : FoodItem := mkFoodItem "at50" 150 100 ORANGE.

Definition orange_inside : FoodItem :=
  mkFoodItem "inside" (double 616.003473456359) (double 340.1599781743028) ORANGE.

Definition at_50 : App :=
  set_food [orange_at_50] (set_pos (mkPosition 100 100) (initial world)).

Definition just_inside : App :=
  set_food [orange_inside] (set_pos (mkPosition 620 390) (initial world)).

(** A window 720 high, and the creature on the line [y = 504]. *)
Definition tall : Window := mkWindow 1280 720.

Definition on_the_line : App := set_pos (mkPosition 640 504) (initial tall).

(** A window narrower than the two margins together. *)
Definition narrow : Window := mkWindow 80 600.

(** ** Keyboard, spawner and display *)

(** [handleKeyDown] and [handleKeyUp]: [keysPressed.current.add(e.key)] and
    [keysPressed.current.delete(e.key)]. *)
Definition handleKeyDown (key : string) (keysPressed : gset string) : gset string :=
  {[key]} ∪ keysPressed.

Definition handleKeyUp (key : string) (keysPressed : gset string) : gset string :=
  keysPressed ∖ {[key]}.

(** The item [spawnFood] builds, lines 30 to 38: [id] is the random
    identifier, [r_type], [r_x] and [r_y] are the three later draws of
    [Math.random()]. *)
Definition newFood (loadHeight : Q) (window : Window) (id : string)
    (r_type r_x r_y : Q) : FoodItem :=
  let isWatermelon := Math.ltb 0.8 r_type in
  let padding := 50 in
  {| id := id;
     food_x := r_x * (innerWidth window - padding * 2) + padding;
     food_y := r_y * (WATER_LEVEL_Y loadHeight - padding) + padding;
     food_type := if isWatermelon then WATERMELON else ORANGE |}.

(** The thought bubble is rendered while
    [thought && (Date.now() - thought.timestamp < 6000)]. *)
Definition bubbleVisible (now : Z) (a : App) : bool :=
  match thought a with
  | Some t => (now - timestamp t <? 6000)%Z
  | None => false
  end.

(** [Math.round]: the nearest integer, halves going up. *)
Definition Math_round (q : Q) : Z := Qfloor (q + (1 # 2)).

(** The three percentages of the overlay: [Math.round(stats.hunger)],
    [Math.round(stats.chill)], [Math.round(stats.energy)]. *)
Definition overlay (s : Stats) : Z * Z * Z :=
  (Math_round (hunger s), Math_round (chill s), Math_round (energy s)).

(** Events of a kind. *)
Definition isFrame (e : Event) : Prop :=
  match e with Frame _ _ _ => True | _ => False end.

Definition isFulfilment (e : Event) : Prop :=
  match e with Settle _ (Fulfilled _) => True | _ => False end.

Definition spawns (events : list Event) : nat :=
  length (List.filter (fun e => match e with Spawn _ => true | _ => false end) events).

(** * Properties *)

(** ** [Math] *)

Module MathFacts.

Lemma max_cases (a b : Q) : (a < b /\ Math.max a b = b) \/ (b <= a /\ Math.max a b = a).
Proof. unfold Math.max. destruct (Qlt_le_dec a b); [left | right]; split; auto. Qed.

Lemma min_cases (a b : Q) : (b < a /\ Math.min a b = b) \/ (a <= b /\ Math.min a b = a).
Proof. unfold Math.min. destruct (Qlt_le_dec b a); [left | right]; split; auto. Qed.

Lemma ltb_true (a b : Q) : Math.ltb a b = true <-> a < b.
Proof.
  unfold Math.ltb. destruct (Qlt_le_dec a b) as [Hlt | Hle]; split; auto; try discriminate.
  intros Hab. exfalso. apply (Qlt_not_le _ _ Hab Hle).
Qed.

Lemma ltb_false (a b : Q) : Math.ltb a b = false <-> b <= a.
Proof.
  unfold Math.ltb. destruct (Qlt_le_dec a b) as [Hlt | Hle]; split; auto; try discriminate.
  intros Hba. exfalso. apply (Qlt_not_le _ _ Hlt Hba).
Qed.

End MathFacts.

(** Splits on every [Math.max] and [Math.min] of the goal, leaving linear
    arithmetic. *)
Ltac math_cases :=
  repeat match goal with
  | |- context [Math.max ?a ?b] =>
      let H := fresh "Hmax" in let E := fresh "Emax" in
      destruct (MathFacts.max_cases a b) as [[H E] | [H E]]; rewrite E in *; clear E
  | |- context [Math.min ?a ?b] =>
      let H := fresh "Hmin" in let E := fresh "Emin" in
      destruct (MathFacts.min_cases a b) as [[H E] | [H E]]; rewrite E in *; clear E
  | _ : context [Math.max ?a ?b] |- _ =>
      let H := fresh "Hmax" in let E := fresh "Emax" in
      destruct (MathFacts.max_cases a b) as [[H E] | [H E]]; rewrite E in *; clear E
  | _ : context [Math.min ?a ?b] |- _ =>
      let H := fresh "Hmin" in let E := fresh "Emin" in
      destruct (MathFacts.min_cases a b) as [[H E] | [H E]]; rewrite E in *; clear E
  end.

(** ** The frame, field by field *)

Lemma filterFood_spec (newX newY : Q) (w : bool) (l : list FoodItem) :
  filterFood newX newY w l
  = (List.filter (fun f => negb (eats newX newY f)) l,
     flat_map (eat w) (eaten newX newY l)).
Proof.
  unfold eaten. induction l as [| f l IH]; simpl; [reflexivity |].
  rewrite IH. destruct (eats newX newY f); reflexivity.
Qed.

Section FrameFacts.

Variables (capyState0 : CapyState) (stats0 : Stats) (now : Z) (w : bool).

Lemma runCalls_app (l1 l2 : list Call) (a : App) :
  runCalls capyState0 stats0 now (l1 ++ l2) a = runCalls capyState0 stats0 now l2 (runCalls capyState0 stats0 now l1 a).
Proof. apply fold_left_app. Qed.

Lemma runCalls_eat (l : list FoodItem) : forall a : App,
  let a' := runCalls capyState0 stats0 now (flat_map (eat w) l) a in
  pos a' = pos a /\ direction a' = direction a /\ food a' = food a /\
  thought a' = thought a /\
  capyState a' = match l with [] => capyState a | _ => EATING end /\
  stats a' = fold_left (fun s f => eatStats f s) l (stats a) /\
  timers a'
  = timers a ++ map (fun _ => ((now + 1000)%Z, if w then SWIMMING else IDLE)) l /\
  inFlight a' = inFlight a ++ map (fun _ => mkRequest EATING stats0 now) l /\
  isAiLoading a' = match l with [] => isAiLoading a | _ => true end /\
  lastAiCallTime a' = match l with [] => lastAiCallTime a | _ => now end.
Proof.
  induction l as [| f l IH]; intros a; cbv zeta.
  - cbn [flat_map map]. rewrite !app_nil_r. repeat split.
  - cbn [flat_map map]. rewrite runCalls_app.
    destruct (IH (runCalls capyState0 stats0 now (eat w f) a))
      as (Hp & Hd & Hf & Ht & Hc & Hs & Htm & Hi & Hl & Hla).
    rewrite Hp, Hd, Hf, Ht, Hc, Hs, Htm, Hi, Hl, Hla.
    unfold runCalls, eat, fold_left, runCall, triggerThought.
    rewrite andb_false_r. cbn -[Z.add]. rewrite <- !app_assoc.
    repeat split; destruct l; reflexivity.
Qed.

End FrameFacts.

Lemma tick_fields (loadHeight : Q) (keysPressed : gset string) (window : Window)
    (now : Z) (a : App) :
  let p := physics loadHeight (capyState a) (direction a) keysPressed window (pos a) in
  let e := eaten (newX p) (newY p) (food a) in
  let a' := tick loadHeight keysPressed window now a in
  pos a' = mkPosition (newX p) (newY p) /\
  direction a' = newDirection p /\
  food a' = List.filter (fun f => negb (eats (newX p) (newY p) f)) (food a) /\
  capyState a' = match e with [] => nextState p | _ => EATING end /\
  stats a' = fold_left (fun s f => eatStats f s) e (updateStats (capyState a) (stats a)) /\
  timers a'
  = timers a
    ++ map (fun _ => ((now + 1000)%Z, if isInWater p then SWIMMING else IDLE)) e /\
  inFlight a' = inFlight a ++ map (fun _ => mkRequest EATING (stats a) now) e /\
  thought a' = thought a.
Proof.
  intros p e a'. unfold a', tick, updatePhysics. fold p.
  cbn [runUpdates app]. rewrite filterFood_spec.
  cbn [food direction stats set_direction set_stats set_pos]. fold e.
  assert (Hdir : forall d : Direction,
            (if bool_decide (d ≠ newDirection p) then newDirection p else d)
            = newDirection p)
    by (intros d; case_bool_decide as Hd; [reflexivity |];
        destruct (decide (d = newDirection p)); [assumption | contradiction]).
  destruct (bool_decide (nextState p ≠ capyState a)) eqn:Hne;
    cbn [runUpdates runCall app];
    match goal with
    | |- context [runCalls ?c ?s ?n (flat_map (eat ?w) ?l) ?b] =>
        destruct (runCalls_eat c s n w l b)
          as (Hp & Hd & Hf & Ht & Hc & Hs & Htm & Hi & _)
    end;
    rewrite Hp, Hd, Hf, Ht, Hc, Hs, Htm, Hi; cbn; rewrite Hdir;
    repeat split.
  apply bool_decide_eq_false in Hne.
  destruct (decide (nextState p = capyState a)) as [Heq | Hneq];
    [| contradiction].
  destruct e; congruence.
Qed.

Lemma fold_set_capyState_food (l : list (Z * CapyState)) (a : App) :
  food (fold_left (fun a t => set_capyState (snd t) a) l a) = food a.
Proof. revert a. induction l as [| t l IH]; intros a; simpl; [| rewrite IH]; reflexivity. Qed.

Lemma triggerThought_food cs st now forced a :
  food (triggerThought cs st now forced a) = food a.
Proof. unfold triggerThought. destruct (_ && _); reflexivity. Qed.

Lemma step_food (loadHeight : Q) (a : App) (e : Event) (f : FoodItem) :
  In f (food (step loadHeight a e)) -> In f (food a) \/ e = Spawn f.
Proof.
  destruct e as [k w n | n | n | | g | n o]; simpl.
  - destruct (tick_fields loadHeight k w n a) as (_ & _ & Hf & _).
    rewrite Hf, filter_In. tauto.
  - unfold fireTimers. rewrite fold_set_capyState_food. auto.
  - destruct (meditateDisabled a); [auto |]. unfold handleMeditate.
    case_bool_decide; [auto |]. rewrite triggerThought_food. auto.
  - destruct (sleepDisabled a); [auto |]. unfold handleSleep.
    case_bool_decide; auto.
  - unfold spawnFood. simpl. rewrite in_app_iff. simpl.
    intros [H | [H | []]]; [auto | right; congruence].
  - destruct (nth_error (inFlight a) n); [| auto].
    destruct o; auto.
Qed.

Lemma run_food (loadHeight : Q) (events : list Event) (f : FoodItem) :
  Forall (fun e => e <> Spawn f) events ->
  forall a : App, In f (food (run loadHeight events a)) -> In f (food a).
Proof.
  induction 1 as [| e events He _ IH]; intros a; simpl; [auto |].
  intros H. apply IH in H. apply step_food in H. tauto.
Qed.

(** ** Consumption *)

(** C1, as the code has it.  In every frame, a food item of the collection
    whose distance to the position the frame moves the creature to, as the
    code computes it in binary64, is below 50 is eaten in that frame: it is
    no longer in the collection, which keeps the items the test fails on and
    loses nothing else; it does not come back as long as it is not spawned
    again; the stats are those of the frame's decay followed by the boost of
    every eaten item, the boost of [f] adding 30 (watermelon) or 15 to
    hunger and 5 to energy, both capped at 100; and the state the frame
    commits is [EATING], whatever state the physics derived. *)
Theorem consumption_within_radius (loadHeight : Q) (keysPressed : gset string)
    (window : Window) (now : Z) (a : App) (f : FoodItem) :
  let a' := tick loadHeight keysPressed window now a in
  let matched := eaten (x (pos a')) (y (pos a')) (food a) in
  In f (food a) ->
  Double.ltb (dist (x (pos a')) (y (pos a')) f) (Double.ofQ 50) = true ->
  ~ In f (food a')
  /\ (forall g, In g (food a')
                <-> In g (food a)
                    /\ Double.ltb (dist (x (pos a')) (y (pos a')) g) (Double.ofQ 50)
                       = false)
  /\ (length (food a') + length matched = length (food a))%nat
  /\ (forall events, Forall (fun e => e <> Spawn f) events ->
        ~ In f (food (run loadHeight events a')))
  /\ In f matched
  /\ stats a'
     = fold_left (fun s g => eatStats g s) matched
         (updateStats (capyState a) (stats a))
  /\ (forall s,
        hunger (eatStats f s)
        = Math.min 100
            (hunger s + (if bool_decide (food_type f = WATERMELON) then 30 else 15))
        /\ energy (eatStats f s) = Math.min 100 (energy s + 5)
        /\ chill (eatStats f s) = chill s)
  /\ capyState a' = EATING.
Proof.
  intros a' matched Hin Hnear. change (eats (x (pos a')) (y (pos a')) f = true) in Hnear.
  destruct (tick_fields loadHeight keysPressed window now a)
    as (Hp & _ & Hf & Hc & Hs & _).
  fold a' in Hp, Hf, Hc, Hs.
  set (p := physics loadHeight (capyState a) (direction a) keysPressed window (pos a)) in *.
  assert (Hx : newX p = x (pos a')) by (rewrite Hp; reflexivity).
  assert (Hy : newY p = y (pos a')) by (rewrite Hp; reflexivity).
  rewrite Hx, Hy in Hf, Hc, Hs. fold matched in Hc, Hs.
  assert (Hfar : forall g, In g (food a')
                           <-> In g (food a) /\ eats (x (pos a')) (y (pos a')) g = false).
  { intros g. rewrite Hf, filter_In, negb_true_iff. reflexivity. }
  assert (Hm : In f matched).
  { unfold matched, eaten. apply filter_In. split; assumption. }
  assert (Hout : ~ In f (food a')).
  { rewrite Hfar. intros [_ Hge]. congruence. }
  split; [exact Hout |]. split; [exact Hfar |].
  split; [| split; [| split; [exact Hm | split; [exact Hs | split]]]].
  - rewrite Hf. unfold matched, eaten. clear.
    induction (food a) as [| g l IH]; simpl; [reflexivity |].
    destruct (eats _ _ g); simpl; lia.
  - intros events Hev Hback. apply Hout. eapply run_food; eassumption.
  - intros s. repeat split.
  - rewrite Hc. destruct matched; [contradiction | reflexivity].
Qed.

Lemma consumption_within_radius_witness :
  ~ In orange (food (tick 600 ∅ world 7000 scenario))
  /\ capyState (tick 600 ∅ world 7000 scenario) = EATING.
Proof.
  assert (Hin : In orange (food scenario)) by (simpl; auto).
  assert (Hnear : Double.ltb
                    (dist (x (pos (tick 600 ∅ world 7000 scenario)))
                          (y (pos (tick 600 ∅ world 7000 scenario))) orange)
                    (Double.ofQ 50) = true)
    by (vm_compute; reflexivity).
  destruct (consumption_within_radius 600 ∅ world 7000 scenario orange Hin Hnear)
    as (Hout & _ & _ & _ & _ & _ & _ & Hstate).
  split; assumption.
Defined.

(** C1, as stated, fails at the radius.  An orange at exactly 50 units is
    not eaten: the test is strict.  An orange just inside the circle, its
    exact squared distance below 2500, is not eaten either: the squares,
    their sum and the root are rounded, and the computed distance is 50. *)
Lemma consumption_misses_at_radius :
  (dist2 (pos (tick 600 ∅ world 7000 at_50)) orange_at_50 == 50 * 50
   /\ In orange_at_50 (food (tick 600 ∅ world 7000 at_50))
   /\ capyState (tick 600 ∅ world 7000 at_50) = IDLE)
  /\ (dist2 (pos (tick 600 ∅ world 7000 just_inside)) orange_inside < 50 * 50
      /\ Double.toQ (dist 620 390 orange_inside) == 50
      /\ In orange_inside (food (tick 600 ∅ world 7000 just_inside))
      /\ capyState (tick 600 ∅ world 7000 just_inside) = IDLE).
Proof.
  split; [split; [| split] | split; [| split; [| split]]].
  - vm_compute. reflexivity.
  - vm_compute. left. reflexivity.
  - vm_compute. reflexivity.
  - vm_compute. reflexivity.
  - vm_compute. reflexivity.
  - vm_compute. left. reflexivity.
  - vm_compute. reflexivity.
Qed.

(** Walking left onto the orange: the physics derives [WALKING] and writes
    it, the food updater writes [EATING] after it, and the frame commits
    [EATING]. *)
Example eating_overrides_walking :
  nextState (physics 600 (capyState scenario) (direction scenario) {["ArrowLeft"]}
               world (pos scenario)) = WALKING
  /\ stateWrites 600 {["ArrowLeft"]} world scenario = [WALKING; EATING]
  /\ capyState (tick 600 {["ArrowLeft"]} world 7000 scenario) = EATING.
Proof. repeat split. Qed.

(** The water line is the rounded product: in a window 720 high it is just
    below 504 (and just below 126 in one 180 high), so a creature on the
    line [y = 504] is in the water; in a window 600 high it is 420. *)
Example water_line_is_rounded :
  WATER_LEVEL_Y 720 < 504 /\ WATER_LEVEL_Y 180 < 126 /\ WATER_LEVEL_Y 600 == 420
  /\ capyState (tick 720 {["a"; "d"]} tall 0 on_the_line) = SWIMMING.
Proof. repeat split; vm_compute; reflexivity. Qed.

(** ** Boundaries *)

Lemma physics_bounds (loadHeight : Q) (capyState : CapyState) (direction : Direction)
    (keysPressed : gset string) (window : Window) (currentPos : Position) :
  let p := physics loadHeight capyState direction keysPressed window currentPos in
  50 <= newX p /\ 50 <= newY p
  /\ (100 <= innerWidth window -> newX p <= innerWidth window - 50)
  /\ (100 <= innerHeight window -> newY p <= innerHeight window - 50).
Proof.
  unfold physics.
  destruct (movement capyState direction keysPressed currentPos) as [[[mx my] mv] md].
  cbn [newX newY].
  split; [| split; [| split; intros Hw]]; math_cases; lra.
Qed.

(** C2, as the code has it.  After every frame, for any keys and any prior
    state, the position satisfies [50 <= x <= innerWidth - 50] and
    [50 <= y <= innerHeight - 50], provided the window is at least 100 wide
    and 100 high. *)
Theorem position_within_margins (loadHeight : Q) (keysPressed : gset string)
    (window : Window) (now : Z) (a : App) :
  100 <= innerWidth window ->
  100 <= innerHeight window ->
  let a' := tick loadHeight keysPressed window now a in
  (50 <= x (pos a') /\ x (pos a') <= innerWidth window - 50)
  /\ (50 <= y (pos a') /\ y (pos a') <= innerHeight window - 50).
Proof.
  intros Hw Hh a'.
  destruct (tick_fields loadHeight keysPressed window now a) as (Hp & _).
  fold a' in Hp. rewrite Hp. cbn [x y].
  destruct (physics_bounds loadHeight (capyState a) (direction a) keysPressed
              window (pos a)) as (Hx & Hy & Hx' & Hy').
  auto.
Qed.

Lemma position_within_margins_witness :
  (50 <= x (pos (tick 600 {["ArrowLeft"]} world 0 scenario))
   /\ x (pos (tick 600 {["ArrowLeft"]} world 0 scenario)) <= 800 - 50)
  /\ (50 <= y (pos (tick 600 {["ArrowLeft"]} world 0 scenario))
      /\ y (pos (tick 600 {["ArrowLeft"]} world 0 scenario)) <= 600 - 50).
Proof.
  apply (position_within_margins 600 {["ArrowLeft"]} world 0 scenario).
  - vm_compute. discriminate.
  - vm_compute. discriminate.
Defined.

(** C2, as stated, fails in a window 80 wide: the lower margin wins and
    [x] is 50, above [innerWidth - 50 = 30]. *)
Lemma position_outside_margins_narrow :
  let a' := tick 600 ∅ narrow 0 (initial narrow) in
  x (pos a') == 50
  /\ ~ ((50 <= x (pos a') /\ x (pos a') <= innerWidth narrow - 50)
        /\ (50 <= y (pos a') /\ y (pos a') <= innerHeight narrow - 50)).
Proof.
  split; [reflexivity |].
  intros [[_ H] _]. revert H. vm_compute. intros H. apply H. reflexivity.
Qed.

(** ** Stats stay within [0, 100] *)

Lemma stats_ok_updateStats (capyState : CapyState) (s : Stats) :
  stats_ok s -> stats_ok (updateStats capyState s).
Proof.
  unfold stats_ok, updateStats. intros ((Hh0 & Hh1) & (Hc0 & Hc1) & (He0 & He1)).
  cbn [hunger chill energy].
  destruct (Math.ltb (Math.max 0 (hunger s - 0.02)) 20);
    destruct capyState; vm_compute bool_decide; cbn [orb];
    (split; [| split]); split; math_cases; lra.
Qed.

Lemma stats_ok_eatStats (f : FoodItem) (s : Stats) :
  stats_ok s -> stats_ok (eatStats f s).
Proof.
  unfold stats_ok, eatStats. intros ((Hh0 & Hh1) & (Hc0 & Hc1) & (He0 & He1)).
  cbn [hunger chill energy].
  destruct (bool_decide (food_type f = WATERMELON));
    (split; [| split]); split; math_cases; lra.
Qed.

Lemma stats_ok_eaten (l : list FoodItem) (s : Stats) :
  stats_ok s -> stats_ok (fold_left (fun s f => eatStats f s) l s).
Proof.
  revert s. induction l as [| f l IH]; intros s Hs; simpl; [assumption |].
  apply IH, stats_ok_eatStats, Hs.
Qed.

Lemma fold_set_capyState_stats (l : list (Z * CapyState)) (a : App) :
  stats (fold_left (fun a t => set_capyState (snd t) a) l a) = stats a.
Proof. revert a. induction l as [| t l IH]; intros a; simpl; [| rewrite IH]; reflexivity. Qed.

Lemma triggerThought_stats cs st now forced a :
  stats (triggerThought cs st now forced a) = stats a.
Proof. unfold triggerThought. destruct (_ && _); reflexivity. Qed.

Lemma step_stats_ok (loadHeight : Q) (a : App) (e : Event) :
  stats_ok (stats a) -> stats_ok (stats (step loadHeight a e)).
Proof.
  intros Hs. destruct e as [k w n | n | n | | g | n o]; simpl.
  - destruct (tick_fields loadHeight k w n a) as (_ & _ & _ & _ & Hst & _).
    rewrite Hst. apply stats_ok_eaten, stats_ok_updateStats, Hs.
  - unfold fireTimers. rewrite fold_set_capyState_stats. exact Hs.
  - destruct (meditateDisabled a); [exact Hs |]. unfold handleMeditate.
    case_bool_decide; [exact Hs |]. rewrite triggerThought_stats. exact Hs.
  - destruct (sleepDisabled a); [exact Hs |]. unfold handleSleep.
    case_bool_decide; exact Hs.
  - exact Hs.
  - destruct (nth_error (inFlight a) n); [| exact Hs].
    destruct o; exact Hs.
Qed.

Lemma run_stats_ok (loadHeight : Q) (events : list Event) (a : App) :
  stats_ok (stats a) -> stats_ok (stats (run loadHeight events a)).
Proof.
  revert a. induction events as [| e events IH]; intros a Hs; simpl; [assumption |].
  apply IH, step_stats_ok, Hs.
Qed.

(** C8.  The initial stats lie within [0, 100]; the stat model's update
    (in any behavioural state) and the boost of a consumption keep stats
    that lie within [0, 100] there; hence after any sequence of frames,
    timers, actions, spawns and settled calls, each of hunger, chill and
    energy lies within [0, 100]. *)
Theorem stats_within_bounds (loadHeight : Q) (window : Window) :
  stats_ok (stats (initial window))
  /\ (forall (s : Stats) (capyState : CapyState) (f : FoodItem),
        stats_ok s -> stats_ok (updateStats capyState s) /\ stats_ok (eatStats f s))
  /\ (forall events : list Event,
        stats_ok (stats (run loadHeight events (initial window)))).
Proof.
  assert (H0 : stats_ok (stats (initial window))).
  { unfold stats_ok. cbn. repeat split; discriminate. }
  split; [exact H0 |]. split.
  - intros s cs f Hs. split; [apply stats_ok_updateStats | apply stats_ok_eatStats]; exact Hs.
  - intros events. apply run_stats_ok, H0.
Qed.

Lemma stats_within_bounds_witness :
  stats_ok (stats (run 600 [Spawn orange; Frame ∅ world 7000; ClickSleep] (initial world)))
  /\ stats_ok (eatStats orange (mkStats 95 50 99)).
Proof.
  destruct (stats_within_bounds 600 world) as (_ & Hstep & Hrun).
  split; [apply Hrun |].
  apply (Hstep (mkStats 95 50 99) IDLE orange).
  unfold stats_ok. cbn [hunger chill energy]. repeat split; discriminate.
Defined.

(** ** The chill rule *)





(** ** Writes to the behavioural state *)

Lemma last_cons_default {A : Type} (l : list A) (s d : A) :
  List.last (s :: l) d = List.last l s.
Proof.
  revert s d. induction l as [| t l IH]; intros s d; [reflexivity |].
  change (List.last (s :: t :: l) d) with (List.last (t :: l) d).
  rewrite (IH t d), (IH t s). reflexivity.
Qed.

Lemma triggerThought_capyState cs st now forced a :
  capyState (triggerThought cs st now forced a) = capyState a.
Proof. unfold triggerThought. destruct (_ && _); reflexivity. Qed.

Section Writes.

Variables (capyState0 : CapyState) (stats0 : Stats) (now : Z).

Lemma runCall_food (c : Call) (a : App) :
  food (runCall capyState0 stats0 now c a) = food a.
Proof. destruct c; simpl; [reflexivity .. |]. apply triggerThought_food. Qed.

Lemma runCall_capyState (c : Call) (a : App) (l : list CapyState) :
  List.last (callWrites c ++ l) (capyState a)
  = List.last l (capyState (runCall capyState0 stats0 now c a)).
Proof.
  destruct c; simpl; try reflexivity.
  - apply (last_cons_default l).
  - rewrite triggerThought_capyState. reflexivity.
Qed.

Lemma runCalls_capyState (calls : list Call) : forall a : App,
  capyState (runCalls capyState0 stats0 now calls a)
  = List.last (flat_map callWrites calls) (capyState a).
Proof.
  induction calls as [| c calls IH]; intros a; [reflexivity |].
  cbn [flat_map]. rewrite runCall_capyState. apply IH.
Qed.

Lemma runUpdates_capyState (updates : list Update) :
  forall (later : list Call) (a : App),
  capyState (runUpdates capyState0 stats0 now updates later a)
  = List.last (updateWrites updates later (food a)) (capyState a).
Proof.
  induction updates as [| u updates IH]; intros later a; cbn [runUpdates updateWrites].
  - apply runCalls_capyState.
  - destruct u as [f | f | c].
    + rewrite IH. reflexivity.
    + destruct (f (food a)) as [remainingFood calls]. rewrite IH. reflexivity.
    + rewrite IH, runCall_food. symmetry. apply runCall_capyState.
Qed.

End Writes.

(** The state a frame commits is the last value it writes, or the state it
    started in when it writes none. *)
Lemma tick_capyState (loadHeight : Q) (keysPressed : gset string) (window : Window)
    (now : Z) (a : App) :
  capyState (tick loadHeight keysPressed window now a)
  = List.last (stateWrites loadHeight keysPressed window a) (capyState a).
Proof.
  unfold tick, stateWrites.
  destruct (updatePhysics loadHeight (capyState a) (direction a) keysPressed
              window (pos a)) as [newPos updates].
  rewrite runUpdates_capyState. reflexivity.
Qed.

Lemma eat_writes (w : bool) (l : list FoodItem) :
  flat_map callWrites (flat_map (eat w) l) = map (fun _ => EATING) l.
Proof. induction l as [| f l IH]; simpl; [| rewrite IH]; reflexivity. Qed.

Lemma physics_locked (loadHeight : Q) (capyState : CapyState) (direction : Direction)
    (keysPressed : gset string) (window : Window) (currentPos : Position) :
  unlocked capyState = false ->
  let p := physics loadHeight capyState direction keysPressed window currentPos in
  nextState p = capyState /\ newDirection p = direction /\ isMoving p = false
  /\ newX p = Math.max 50 (Math.min (innerWidth window - 50) (x currentPos))
  /\ newY p = Math.max 50 (Math.min (innerHeight window - 50) (y currentPos)).
Proof.
  intros Hl. unfold physics, movement. rewrite Hl. cbn. repeat split.
Qed.

(** C3, as the code has it.  In a frame taken in [EATING], [SLEEPING] or
    [MEDITATING] the physics writes no state and turns no direction: the
    only writes to the state are the forced [EATING], one for every food
    item within reach; the frame commits the last of them, and with no such
    item it leaves the state as it is. *)
Theorem locked_frame_writes (loadHeight : Q) (keysPressed : gset string)
    (window : Window) (now : Z) (a : App) :
  unlocked (capyState a) = false ->
  let a' := tick loadHeight keysPressed window now a in
  let matched := eaten (x (pos a')) (y (pos a')) (food a) in
  stateWrites loadHeight keysPressed window a = map (fun _ => EATING) matched
  /\ capyState a' = List.last (stateWrites loadHeight keysPressed window a) (capyState a)
  /\ (matched = [] -> capyState a' = capyState a)
  /\ (matched <> [] -> capyState a' = EATING)
  /\ direction a' = direction a.
Proof.
  intros Hl a' matched.
  destruct (tick_fields loadHeight keysPressed window now a)
    as (Hp & Hd & _ & Hc & _).
  destruct (physics_locked loadHeight (capyState a) (direction a) keysPressed
              window (pos a) Hl) as (Hn & Hdir & _).
  fold a' in Hp, Hd, Hc.
  set (p := physics loadHeight (capyState a) (direction a) keysPressed window (pos a)) in *.
  assert (Hm : eaten (newX p) (newY p) (food a) = matched)
    by (unfold matched; rewrite Hp; reflexivity).
  rewrite Hm in Hc.
  split; [| split; [apply tick_capyState | split; [| split]]].
  - unfold stateWrites, updatePhysics. fold p. rewrite Hn.
    rewrite bool_decide_eq_false_2 by (intros H; apply H; reflexivity).
    cbn [snd app updateWrites]. rewrite filterFood_spec.
    cbn [updateWrites app]. rewrite Hm. apply eat_writes.
  - intros He. rewrite Hc, He. exact Hn.
  - intros He. rewrite Hc. destruct matched; [contradiction | reflexivity].
  - rewrite Hd. exact Hdir.
Qed.

Lemma locked_frame_writes_witness :
  stateWrites 600 {["ArrowLeft"]} world asleep = [EATING]
  /\ direction (tick 600 {["ArrowLeft"]} world 7000 asleep) = Right.
Proof.
  destruct (locked_frame_writes 600 {["ArrowLeft"]} world 7000 asleep)
    as (Hw & _ & _ & _ & Hd);
    [reflexivity |].
  split; [rewrite Hw; reflexivity | rewrite Hd; reflexivity].
Defined.

(** C3, as stated, fails.  A frame taken asleep next to an orange writes
    [EATING] to the state, and the frame ends in [EATING]; and the sleep
    button, which is not disabled in [EATING], takes the creature from
    [EATING] to [SLEEPING]. *)
Lemma locked_state_altered :
  (unlocked (capyState asleep) = false
   /\ stateWrites 600 ∅ world asleep = [EATING]
   /\ capyState (tick 600 ∅ world 7000 asleep) = EATING)
  /\ (capyState (tick 600 ∅ world 7000 scenario) = EATING
      /\ capyState (step 600 (tick 600 ∅ world 7000 scenario) ClickSleep) = SLEEPING).
Proof. repeat split. Qed.

(** ** The thought gate *)

Lemma not_snoc_self {A : Type} (l : list A) (r : A) : l <> l ++ [r].
Proof.
  intros H. apply (f_equal (@length A)) in H.
  rewrite length_app in H. simpl in H. lia.
Qed.

(** The two ways through [triggerThought]. *)
Lemma triggerThought_sent (capyState : CapyState) (stats : Stats) (now : Z)
    (forcedState : option CapyState) (a : App) :
  forcedState <> None \/ (5000 <= now - lastAiCallTime a)%Z ->
  triggerThought capyState stats now forcedState a
  = set_inFlight
      (inFlight a
       ++ [mkRequest (match forcedState with Some s => s | None => capyState end)
             stats now])
      (set_lastAiCallTime now (set_isAiLoading true a)).
Proof.
  intros Hs. unfold triggerThought, API_DEBOUNCE_MS.
  destruct forcedState as [s |]; cbn [not_]; [rewrite andb_false_r; reflexivity |].
  destruct Hs as [Hs | Hs]; [congruence |].
  apply Z.ltb_ge in Hs. rewrite Hs. reflexivity.
Qed.

Lemma triggerThought_held (capyState : CapyState) (stats : Stats) (now : Z) (a : App) :
  (now - lastAiCallTime a < 5000)%Z ->
  triggerThought capyState stats now None a = a.
Proof.
  intros Hs. unfold triggerThought, API_DEBOUNCE_MS.
  apply Z.ltb_lt in Hs. rewrite Hs. reflexivity.
Qed.

(** C6.  [triggerThought] sends a request exactly when it is forced or at
    least 5000 ms have passed since the last request was sent; a request
    that is sent, forced or not, sets the time of the last request to the
    current time (and raises the busy flag); a request that is not sent
    changes nothing. *)
Theorem thought_gate (capyState : CapyState) (stats : Stats) (now : Z)
    (forcedState : option CapyState) (a : App) :
  let a' := triggerThought capyState stats now forcedState a in
  (dispatched a a'
   <-> forcedState <> None \/ (5000 <= now - lastAiCallTime a)%Z)
  /\ (dispatched a a' ->
      lastAiCallTime a' = now /\ isAiLoading a' = true
      /\ inFlight a'
         = inFlight a
           ++ [mkRequest (match forcedState with Some s => s | None => capyState end)
                 stats now])
  /\ (~ dispatched a a' -> a' = a).
Proof.
  cbv zeta. unfold dispatched.
  destruct (decide (forcedState <> None \/ (5000 <= now - lastAiCallTime a)%Z))
    as [Hs | Hs].
  - rewrite (triggerThought_sent _ _ _ _ _ Hs).
    cbn [inFlight lastAiCallTime isAiLoading set_inFlight set_lastAiCallTime
         set_isAiLoading].
    split; [split; [intros _; exact Hs | intros _; eexists; reflexivity] |].
    split; [intros _; repeat split |].
    intros H. exfalso. apply H. eexists. reflexivity.
  - assert (Hnone : forcedState = None)
      by (destruct forcedState; [exfalso; apply Hs; left; discriminate | reflexivity]).
    assert (Hlt : (now - lastAiCallTime a < 5000)%Z) by lia.
    subst forcedState. rewrite (triggerThought_held _ _ _ _ Hlt).
    split; [split; [intros [r Hr]; destruct (not_snoc_self _ _ Hr) | contradiction] |].
    split; [intros [r Hr]; destruct (not_snoc_self _ _ Hr) | reflexivity].
Qed.

Lemma thought_gate_witness :
  lastAiCallTime (triggerThought IDLE (stats scenario) 100 (Some EATING) scenario) = 100%Z
  /\ triggerThought IDLE (stats scenario) 100 None scenario = scenario.
Proof.
  destruct (thought_gate IDLE (stats scenario) 100 (Some EATING) scenario)
    as (Hiff1 & Hsent1 & _).
  destruct (thought_gate IDLE (stats scenario) 100 None scenario)
    as (Hiff2 & _ & Hnot2).
  split.
  - apply Hsent1, Hiff1. left. discriminate.
  - apply Hnot2. intros H. apply Hiff2 in H.
    destruct H as [H | H]; [apply H; reflexivity |].
    vm_compute in H. apply H. reflexivity.
Defined.

(** C5, on the code.  When the promise of the text generation is rejected
    after a request was sent, the thought stays as it was and nothing else
    changes either: the busy flag, raised when the request was sent, stays
    raised, whereas a fulfilled promise lowers it. *)
Theorem rejection_keeps_busy_flag (capyState : CapyState) (stats : Stats) (now : Z)
    (forcedState : option CapyState) (a : App) (r : Request) :
  forcedState <> None \/ (5000 <= now - lastAiCallTime a)%Z ->
  let a1 := triggerThought capyState stats now forcedState a in
  let a2 := triggerThought_resume r Rejected a1 in
  thought a2 = thought a
  /\ isAiLoading a2 = true
  /\ (forall text, isAiLoading (triggerThought_resume r (Fulfilled text) a1) = false).
Proof.
  intros Hd a1 a2. unfold a2, a1. rewrite (triggerThought_sent _ _ _ _ _ Hd).
  repeat split.
Qed.

(** The meditate button is pressed, the request is rejected: the component
    shows no thought, stays busy, and the button stays disabled, while the
    frames go on. *)
Lemma rejection_keeps_busy_flag_witness :
  let a := run 600 [ClickMeditate 7000; Settle 0 Rejected] (initial world) in
  thought a = None /\ isAiLoading a = true /\ inFlight a = []
  /\ meditateDisabled a = true
  /\ hunger (stats (step 600 a (Frame ∅ world 7016))) == 79.98.
Proof.
  destruct (rejection_keeps_busy_flag IDLE (stats (initial world)) 7000
              (Some MEDITATING) (set_capyState MEDITATING (initial world))
              (mkRequest MEDITATING (stats (initial world)) 7000))
    as (Ht & Hb & _); [left; discriminate |].
  cbv zeta. split; [exact Ht |]. split; [exact Hb |]. repeat split.
Defined.

(** ** The deferred unlock *)

Lemma fold_set_capyState_timers (l : list (Z * CapyState)) (a : App) :
  timers (fold_left (fun a t => set_capyState (snd t) a) l a) = timers a.
Proof. revert a. induction l as [| t l IH]; intros a; simpl; [| rewrite IH]; reflexivity. Qed.

Lemma fireTimers_timers (now : Z) (a : App) :
  timers (fireTimers now a)
  = List.filter (fun t => negb (fst t <=? now)%Z) (timers a).
Proof. unfold fireTimers. rewrite fold_set_capyState_timers. reflexivity. Qed.

(** Nothing is written while no timer is due. *)
Lemma fireTimers_early (now : Z) (a : App) :
  Forall (fun t => (now < fst t)%Z) (timers a) ->
  capyState (fireTimers now a) = capyState a.
Proof.
  intros Hall. unfold fireTimers.
  replace (List.filter (fun t => (fst t <=? now)%Z) (timers a)) with (@nil (Z * CapyState)).
  - reflexivity.
  - symmetry. induction Hall as [| t l Ht _ IH]; [reflexivity |].
    cbn [List.filter]. apply Z.leb_gt in Ht. rewrite Ht. exact IH.
Qed.

Lemma map_const_snoc {A B : Type} (c : B) (l : list A) :
  l <> [] -> exists l' : list B, map (fun _ => c) l = l' ++ [c].
Proof.
  intros Hl. destruct (exists_last Hl) as (l' & x & ->).
  exists (map (fun _ => c) l'). rewrite map_app. reflexivity.
Qed.

Lemma physics_isInWater (loadHeight : Q) (capyState : CapyState) (direction : Direction)
    (keysPressed : gset string) (window : Window) (currentPos : Position) :
  let p := physics loadHeight capyState direction keysPressed window currentPos in
  isInWater p = Math.ltb (WATER_LEVEL_Y loadHeight) (newY p).
Proof.
  unfold physics.
  destruct (movement capyState direction keysPressed currentPos) as [[[mx my] mv] md].
  reflexivity.
Qed.

Lemma triggerThought_timers cs st now forced a :
  timers (triggerThought cs st now forced a) = timers a.
Proof. unfold triggerThought. destruct (_ && _); reflexivity. Qed.

Lemma Forall_later_filter (due : Z) (keep : Z * CapyState -> bool)
    (l : list (Z * CapyState)) :
  Forall (fun t => (due < fst t)%Z) l ->
  Forall (fun t => (due < fst t)%Z) (List.filter keep l).
Proof.
  intros H. apply List.Forall_forall. intros t Ht. apply filter_In in Ht.
  destruct Ht as [Ht _]. revert t Ht. apply List.Forall_forall. exact H.
Qed.

Lemma filter_later_nil (due : Z) (l : list (Z * CapyState)) :
  Forall (fun t => (due < fst t)%Z) l ->
  List.filter (fun t => (fst t <=? due)%Z) l = [].
Proof.
  induction 1 as [| t l Ht _ IH]; [reflexivity |].
  cbn [List.filter]. apply Z.leb_gt in Ht. rewrite Ht. exact IH.
Qed.

(** When the timers run at its time, a pending unlock decides the state. *)
Lemma fireTimers_pending (due : Z) (s : CapyState) (a : App) :
  unlock_pending due s (timers a) -> capyState (fireTimers due a) = s.
Proof.
  intros (earlier & later & Ht & Hlater). unfold fireTimers.
  rewrite Ht, !List.filter_app. cbn [List.filter fst].
  rewrite Z.leb_refl. cbn [negb]. rewrite (filter_later_nil due later Hlater).
  rewrite fold_left_app. reflexivity.
Qed.

(** The events before the unlock leave it pending. *)
Lemma step_pending (loadHeight : Q) (now : Z) (s : CapyState) (a : App) (e : Event) :
  before_unlock now e ->
  unlock_pending (now + 1000) s (timers a) ->
  unlock_pending (now + 1000) s (timers (step loadHeight a e)).
Proof.
  intros He (earlier & later & Ht & Hlater).
  destruct e as [k w t | t | t | | g | n o]; simpl in He |- *.
  - destruct (tick_fields loadHeight k w t a) as (_ & _ & _ & _ & _ & Htm & _).
    rewrite Htm, Ht, <- app_assoc. cbn [app].
    eexists earlier, _. split; [reflexivity |].
    apply Forall_app. split; [exact Hlater |].
    apply List.Forall_forall. intros u Hu. apply in_map_iff in Hu.
    destruct Hu as (g & <- & _). cbn [fst]. lia.
  - rewrite fireTimers_timers, Ht, List.filter_app. cbn [List.filter fst].
    replace (now + 1000 <=? t)%Z with false by (symmetry; apply Z.leb_gt; exact He).
    cbn [negb]. eexists _, _. split; [reflexivity |].
    apply Forall_later_filter, Hlater.
  - exists earlier, later. split; [| exact Hlater].
    destruct (meditateDisabled a); [exact Ht |]. unfold handleMeditate.
    case_bool_decide; [exact Ht |]. rewrite triggerThought_timers. exact Ht.
  - exists earlier, later. split; [| exact Hlater].
    destruct (sleepDisabled a); [exact Ht |]. unfold handleSleep.
    case_bool_decide; exact Ht.
  - exists earlier, later. split; [exact Ht | exact Hlater].
  - exists earlier, later. split; [| exact Hlater].
    destruct (nth_error (inFlight a) n); [| exact Ht].
    destruct o; exact Ht.
Qed.

Lemma run_pending (loadHeight : Q) (now : Z) (s : CapyState) (events : list Event) :
  Forall (before_unlock now) events ->
  forall a : App,
  unlock_pending (now + 1000) s (timers a) ->
  unlock_pending (now + 1000) s (timers (run loadHeight events a)).
Proof.
  induction 1 as [| e events He _ IH]; intros a Ha; simpl; [exact Ha |].
  apply IH, step_pending; assumption.
Qed.

(** C7.  A frame at time [now] that eats a food item (the item is in the
    collection and its computed distance is below 50) sets a timer due at
    [now + 1000] that writes [SWIMMING] if the position of that frame is in
    the water ([WATER_LEVEL_Y < y], the water line being the binary64
    product) and [IDLE] otherwise.  The timer stays
    pending, and writes nothing, before its time.  When the timers run at
    [now + 1000] the state becomes that value whatever it was: after any
    frames, button presses, spawns and settled calls in between, and in
    particular after the sleep button put the creature in [SLEEPING]. *)
Theorem deferred_unlock (loadHeight : Q) (keysPressed : gset string)
    (window : Window) (now : Z) (a : App) (f : FoodItem) :
  let a' := tick loadHeight keysPressed window now a in
  let target :=
    if Math.ltb (WATER_LEVEL_Y loadHeight) (y (pos a')) then SWIMMING else IDLE in
  In f (food a) ->
  Double.ltb (dist (x (pos a')) (y (pos a')) f) (Double.ofQ 50) = true ->
  In ((now + 1000)%Z, target) (timers a')
  /\ (forall (b : App) (t : Z), timers b = timers a' -> (t < now + 1000)%Z ->
        In ((now + 1000)%Z, target) (timers (fireTimers t b))
        /\ (timers a = [] -> capyState (fireTimers t b) = capyState b))
  /\ (forall events : list Event, Forall (before_unlock now) events ->
        capyState (fireTimers (now + 1000) (run loadHeight events a')) = target)
  /\ capyState (step loadHeight a' ClickSleep) = SLEEPING
  /\ capyState (fireTimers (now + 1000) (step loadHeight a' ClickSleep)) = target
  /\ (forall s : CapyState,
        capyState (fireTimers (now + 1000) (set_capyState s a')) = target).
Proof.
  intros a' target Hin Hnear.
  destruct (tick_fields loadHeight keysPressed window now a)
    as (Hp & _ & _ & Hc & _ & Htm & _).
  fold a' in Hp, Hc, Htm.
  set (p := physics loadHeight (capyState a) (direction a) keysPressed window (pos a)) in *.
  assert (Hw : (if isInWater p then SWIMMING else IDLE) = target).
  { unfold target, p. rewrite physics_isInWater. fold p. rewrite Hp. reflexivity. }
  rewrite Hw in Htm.
  set (matched := eaten (newX p) (newY p) (food a)) in *.
  assert (Hm : In f matched).
  { unfold matched, eaten. apply filter_In. split; [assumption |].
    rewrite Hp in Hnear. exact Hnear. }
  assert (Hne : matched <> []) by (intros E; rewrite E in Hm; contradiction).
  assert (Heating : capyState a' = EATING)
    by (rewrite Hc; destruct matched; [contradiction | reflexivity]).
  destruct (map_const_snoc ((now + 1000)%Z, target) matched Hne) as (l' & Hl').
  assert (Hpend : unlock_pending (now + 1000) target (timers a')).
  { exists (timers a ++ l'), []. split; [| constructor].
    rewrite Htm, Hl', app_assoc. reflexivity. }
  assert (Hrun : forall events, Forall (before_unlock now) events ->
            capyState (fireTimers (now + 1000) (run loadHeight events a')) = target).
  { intros events Hev. apply fireTimers_pending, run_pending; assumption. }
  assert (Hset : In ((now + 1000)%Z, target) (timers a')).
  { rewrite Htm, Hl', !in_app_iff. right. right. simpl. auto. }
  split; [exact Hset |]. split; [| split; [exact Hrun | split; [| split]]].
  - intros b t Hb Ht. split.
    + rewrite fireTimers_timers, Hb. apply filter_In. split; [exact Hset |].
      cbn [fst]. apply negb_true_iff, Z.leb_gt. exact Ht.
    + intros Hnone. apply fireTimers_early. rewrite Hb, Htm, Hnone. cbn [app].
      apply List.Forall_forall. intros u Hu. apply in_map_iff in Hu.
      destruct Hu as (g & <- & _). exact Ht.
  - cbn [step]. unfold sleepDisabled, handleSleep. rewrite Heating. reflexivity.
  - apply (Hrun [ClickSleep]). repeat constructor.
  - intros s. apply fireTimers_pending. exact Hpend.
Qed.

Lemma deferred_unlock_witness :
  capyState (step 600 (tick 600 ∅ world 7000 scenario) ClickSleep) = SLEEPING
  /\ capyState (fireTimers 7999 (step 600 (tick 600 ∅ world 7000 scenario) ClickSleep))
     = SLEEPING
  /\ capyState (fireTimers 8000 (step 600 (tick 600 ∅ world 7000 scenario) ClickSleep))
     = IDLE.
Proof.
  assert (Hin : In orange (food scenario)) by (simpl; auto).
  assert (Hnear : Double.ltb
                    (dist (x (pos (tick 600 ∅ world 7000 scenario)))
                          (y (pos (tick 600 ∅ world 7000 scenario))) orange)
                    (Double.ofQ 50) = true)
    by (vm_compute; reflexivity).
  destruct (deferred_unlock 600 ∅ world 7000 scenario orange Hin Hnear)
    as (_ & Hearly & _ & Hasleep & Hsleep & _).
  split; [exact Hasleep |]. split.
  - destruct (Hearly (step 600 (tick 600 ∅ world 7000 scenario) ClickSleep) 7999%Z)
      as [_ He]; [vm_compute; reflexivity | vm_compute; reflexivity |].
    rewrite He; vm_compute; reflexivity.
  - vm_compute in Hsleep |- *. exact Hsleep.
Defined.

(** ** Movement keys *)

Lemma physics_unlocked (loadHeight : Q) (capyState : CapyState) (direction : Direction)
    (keysPressed : gset string) (window : Window) (currentPos : Position) :
  unlocked capyState = true ->
  let p := physics loadHeight capyState direction keysPressed window currentPos in
  newDirection p
  = (if pressedRight keysPressed then Right
     else if pressedLeft keysPressed then Left else direction)
  /\ isMoving p = pressedLeft keysPressed || pressedRight keysPressed
  /\ newX p
     = Math.max 50 (Math.min (innerWidth window - 50)
         (let x1 := if pressedLeft keysPressed then x currentPos - 3 else x currentPos in
          if pressedRight keysPressed then x1 + 3 else x1))
  /\ newY p
     = Math.max 50 (Math.min (innerHeight window - 50)
         (let y1 := if pressedUp keysPressed then y currentPos - 3 else y currentPos in
          if pressedDown keysPressed then y1 + 3 else y1))
  /\ nextState p
     = (if isInWater p then SWIMMING else if isMoving p then WALKING else IDLE).
Proof.
  intros Hu. unfold physics, movement, pressedUp, pressedDown, pressedLeft, pressedRight,
    MOVEMENT_SPEED.
  rewrite Hu.
  destruct (has keysPressed "ArrowUp" || has keysPressed "w");
    destruct (has keysPressed "ArrowDown" || has keysPressed "s");
    destruct (has keysPressed "ArrowLeft" || has keysPressed "a");
    destruct (has keysPressed "ArrowRight" || has keysPressed "d");
    repeat split.
Qed.

(** C9, as the code has it.  In a frame taken in an unlocked state with a
    vertical key pressed and no horizontal key, the position ending out of
    the water: the direction is unchanged, the derived state is [IDLE] (and
    it is the state of the frame unless food is eaten), [x] is only
    clamped, and [y] is moved by 3 for each vertical key and clamped; so
    the position changes when one vertical key alone is pressed and the
    move stays within the margins. *)
Theorem vertical_only_frame (loadHeight : Q) (keysPressed : gset string)
    (window : Window) (now : Z) (a : App) :
  unlocked (capyState a) = true ->
  pressedLeft keysPressed = false ->
  pressedRight keysPressed = false ->
  pressedUp keysPressed = true \/ pressedDown keysPressed = true ->
  let p := physics loadHeight (capyState a) (direction a) keysPressed window (pos a) in
  let a' := tick loadHeight keysPressed window now a in
  y (pos a') <= WATER_LEVEL_Y loadHeight ->
  direction a' = direction a
  /\ isMoving p = false
  /\ nextState p = IDLE
  /\ (eaten (x (pos a')) (y (pos a')) (food a) = [] -> capyState a' = IDLE)
  /\ x (pos a') = Math.max 50 (Math.min (innerWidth window - 50) (x (pos a)))
  /\ y (pos a')
     == Math.max 50 (Math.min (innerHeight window - 50)
          (y (pos a) - (if pressedUp keysPressed then 3 else 0)
           + (if pressedDown keysPressed then 3 else 0)))
  /\ (pressedUp keysPressed <> pressedDown keysPressed ->
      50 + 3 <= y (pos a) -> y (pos a) <= innerHeight window - 50 - 3 ->
      ~ y (pos a') == y (pos a)).
Proof.
  intros Hu Hl Hr Hv p a' Hland.
  destruct (tick_fields loadHeight keysPressed window now a)
    as (Hp & Hd & _ & Hc & _).
  fold p a' in Hp, Hd, Hc.
  destruct (physics_unlocked loadHeight (capyState a) (direction a) keysPressed
              window (pos a) Hu) as (Hnd & Hmv & Hnx & Hny & Hns).
  fold p in Hnd, Hmv, Hnx, Hny, Hns.
  rewrite Hl, Hr in Hnd, Hmv, Hnx. cbn in Hmv. cbv zeta in Hnx.
  assert (Hdry : isInWater p = false).
  { unfold p. rewrite physics_isInWater. fold p. apply MathFacts.ltb_false.
    rewrite Hp in Hland. exact Hland. }
  rewrite Hdry, Hmv in Hns.
  assert (Hx : x (pos a') = newX p) by (rewrite Hp; reflexivity).
  assert (Hy : y (pos a') = newY p) by (rewrite Hp; reflexivity).
  split; [congruence |]. split; [exact Hmv |]. split; [exact Hns |].
  split; [intros He; rewrite Hx, Hy in He; rewrite Hc, He; exact Hns |].
  split; [congruence |].
  rewrite Hy, Hny. clear Hv.
  destruct (pressedUp keysPressed); destruct (pressedDown keysPressed); cbv zeta;
    (split; [| intros Hne H3 H4; try congruence]); math_cases; lra.
Qed.

Lemma vertical_only_frame_witness :
  direction (tick 600 {["w"]} world 0 in_the_middle) = Right
  /\ capyState (tick 600 {["w"]} world 0 in_the_middle) = IDLE
  /\ ~ y (pos (tick 600 {["w"]} world 0 in_the_middle)) == 300.
Proof.
  destruct (vertical_only_frame 600 {["w"]} world 0 in_the_middle)
    as (Hd & _ & _ & Hs & _ & _ & Hy).
  - vm_compute; reflexivity.
  - vm_compute; reflexivity.
  - vm_compute; reflexivity.
  - left. vm_compute; reflexivity.
  - vm_compute. discriminate.
  - split; [rewrite Hd; reflexivity |]. split.
    + apply Hs. vm_compute; reflexivity.
    + apply Hy; vm_compute; discriminate.
Defined.

(** C9, as stated, fails: the position does not change when the clamp takes
    the move back (up at the upper margin) or when up and down are pressed
    together. *)
Lemma vertical_keys_position_unchanged :
  (unlocked (capyState at_top) = true
   /\ pressedUp {["ArrowUp"]} = true
   /\ pressedLeft {["ArrowUp"]} = false /\ pressedRight {["ArrowUp"]} = false
   /\ y (pos (tick 600 {["ArrowUp"]} world 0 at_top)) <= WATER_LEVEL_Y 600
   /\ pos (tick 600 {["ArrowUp"]} world 0 at_top) = pos at_top)
  /\ (pressedUp {["w"; "s"]} = true /\ pressedDown {["w"; "s"]} = true
      /\ pressedLeft {["w"; "s"]} = false /\ pressedRight {["w"; "s"]} = false
      /\ x (pos (tick 600 {["w"; "s"]} world 0 in_the_middle)) == x (pos in_the_middle)
      /\ y (pos (tick 600 {["w"; "s"]} world 0 in_the_middle)) == y (pos in_the_middle)).
Proof. repeat split; vm_compute; try reflexivity; discriminate. Qed.

Lemma fold_set_capyState_pos (l : list (Z * CapyState)) (a : App) :
  pos (fold_left (fun a t => set_capyState (snd t) a) l a) = pos a.
Proof. revert a. induction l as [| t l IH]; intros a; simpl; [| rewrite IH]; reflexivity. Qed.

Lemma triggerThought_pos cs st now forced a :
  pos (triggerThought cs st now forced a) = pos a.
Proof. unfold triggerThought. destruct (_ && _); reflexivity. Qed.

Lemma initial_within_margins (window : Window) :
  100 <= innerWidth window -> 100 <= innerHeight window ->
  within_margins window (pos (initial window)).
Proof.
  intros Hw Hh. unfold within_margins. cbn [initial pos x y].
  unfold Qdiv. change (/ 2) with (1 # 2).
  split; split; lra.
Qed.

Lemma step_within_margins (loadHeight : Q) (window : Window) (a : App) (e : Event) :
  100 <= innerWidth window -> 100 <= innerHeight window ->
  in_window window e ->
  within_margins window (pos a) ->
  within_margins window (pos (step loadHeight a e)).
Proof.
  intros Hw Hh He Ha. destruct e as [k w n | n | n | | g | n o]; simpl.
  - simpl in He. subst w.
    destruct (tick_fields loadHeight k window n a) as (Hp & _).
    rewrite Hp. unfold within_margins. cbn [x y].
    destruct (physics_bounds loadHeight (capyState a) (direction a) k window (pos a))
      as (Hx & Hy & Hx' & Hy').
    auto.
  - unfold fireTimers. rewrite fold_set_capyState_pos. exact Ha.
  - destruct (meditateDisabled a); [exact Ha |]. unfold handleMeditate.
    case_bool_decide; [exact Ha |]. rewrite triggerThought_pos. exact Ha.
  - destruct (sleepDisabled a); [exact Ha |]. unfold handleSleep.
    case_bool_decide; exact Ha.
  - exact Ha.
  - destruct (nth_error (inFlight a) n); [| exact Ha].
    destruct o; exact Ha.
Qed.

(** In a window of at least 100 by 100 that does not change, the creature
    is within the margins from the start on. *)
Lemma run_within_margins (loadHeight : Q) (window : Window) (events : list Event) :
  100 <= innerWidth window -> 100 <= innerHeight window ->
  Forall (in_window window) events ->
  within_margins window (pos (run loadHeight events (initial window))).
Proof.
  intros Hw Hh Hev. unfold run.
  generalize (initial_within_margins window Hw Hh).
  generalize (initial window) as a.
  induction Hev as [| e events He _ IH]; intros a Ha; simpl; [exact Ha |].
  apply IH, step_within_margins; assumption.
Qed.

(** C10.  In a frame taken in an unlocked state with a left key and a right
    key pressed, the two displacements cancel: [x] is the previous [x]
    clamped, hence unchanged for a creature within the margins; the
    direction is right, the frame counts as moving, and, the position ending
    out of the water, the derived state is [WALKING] (and it is the state
    of the frame unless food is eaten). *)
Theorem left_and_right_frame (loadHeight : Q) (keysPressed : gset string)
    (window : Window) (now : Z) (a : App) :
  unlocked (capyState a) = true ->
  pressedLeft keysPressed = true ->
  pressedRight keysPressed = true ->
  let p := physics loadHeight (capyState a) (direction a) keysPressed window (pos a) in
  let a' := tick loadHeight keysPressed window now a in
  x (pos a') == Math.max 50 (Math.min (innerWidth window - 50) (x (pos a)))
  /\ (50 <= x (pos a) -> x (pos a) <= innerWidth window - 50 ->
      x (pos a') == x (pos a))
  /\ direction a' = Right
  /\ isMoving p = true
  /\ (y (pos a') <= WATER_LEVEL_Y loadHeight ->
      nextState p = WALKING
      /\ (eaten (x (pos a')) (y (pos a')) (food a) = [] -> capyState a' = WALKING)).
Proof.
  intros Hu Hl Hr p a'.
  destruct (tick_fields loadHeight keysPressed window now a)
    as (Hp & Hd & _ & Hc & _).
  fold p a' in Hp, Hd, Hc.
  destruct (physics_unlocked loadHeight (capyState a) (direction a) keysPressed
              window (pos a) Hu) as (Hnd & Hmv & Hnx & _ & Hns).
  fold p in Hnd, Hmv, Hnx, Hns.
  rewrite Hl, Hr in Hnd, Hmv, Hnx. cbn in Hmv. cbv zeta in Hnx.
  assert (Hx : x (pos a') = newX p) by (rewrite Hp; reflexivity).
  assert (Hy : y (pos a') = newY p) by (rewrite Hp; reflexivity).
  split; [| split; [| split; [congruence | split; [exact Hmv |]]]].
  - rewrite Hx, Hnx. math_cases; lra.
  - intros Hx0 Hx1. rewrite Hx, Hnx. math_cases; lra.
  - intros Hland.
    assert (Hdry : isInWater p = false).
    { unfold p. rewrite physics_isInWater. fold p. apply MathFacts.ltb_false.
      rewrite Hy in Hland. exact Hland. }
    rewrite Hdry, Hmv in Hns. split; [exact Hns |].
    intros He. rewrite Hx, Hy in He. rewrite Hc, He. exact Hns.
Qed.

Lemma left_and_right_frame_witness :
  x (pos (tick 600 {["ArrowLeft"; "d"]} world 0 in_the_middle)) == 400
  /\ direction (tick 600 {["ArrowLeft"; "d"]} world 0 in_the_middle) = Right
  /\ capyState (tick 600 {["ArrowLeft"; "d"]} world 0 in_the_middle) = WALKING.
Proof.
  destruct (left_and_right_frame 600 {["ArrowLeft"; "d"]} world 0 in_the_middle)
    as (_ & Hx & Hd & _ & Hw).
  - vm_compute; reflexivity.
  - vm_compute; reflexivity.
  - vm_compute; reflexivity.
  - split; [apply Hx; vm_compute; discriminate |]. split; [exact Hd |].
    apply Hw; [vm_compute; discriminate | vm_compute; reflexivity].
Defined.

(** * Further properties of the component *)

(** ** Movement *)

(** X1.  In [EATING], [SLEEPING] or [MEDITATING] the keys are not read: a
    frame gives the same component whatever keys are pressed. *)
Theorem locked_frame_ignores_keys (loadHeight : Q) (keysPressed keysPressed' : gset string)
    (window : Window) (now : Z) (a : App) :
  unlocked (capyState a) = false ->
  tick loadHeight keysPressed window now a = tick loadHeight keysPressed' window now a.
Proof.
  intros Hl. unfold tick, updatePhysics.
  replace (physics loadHeight (capyState a) (direction a) keysPressed window (pos a))
    with (physics loadHeight (capyState a) (direction a) keysPressed' window (pos a));
    [reflexivity |].
  unfold physics, movement. rewrite Hl. reflexivity.
Qed.

Lemma locked_frame_ignores_keys_witness :
  tick 600 {["ArrowLeft"; "w"]} world 0 asleep = tick 600 ∅ world 0 asleep.
Proof. apply (locked_frame_ignores_keys 600 {["ArrowLeft"; "w"]} ∅ world 0 asleep). reflexivity. Defined.

(** X2.  A creature within the margins moves by at most 3 along each axis
    in a frame, whatever its state and the keys. *)
Theorem frame_speed_bound (loadHeight : Q) (keysPressed : gset string)
    (window : Window) (now : Z) (a : App) :
  within_margins window (pos a) ->
  let a' := tick loadHeight keysPressed window now a in
  (x (pos a) - 3 <= x (pos a') /\ x (pos a') <= x (pos a) + 3)
  /\ (y (pos a) - 3 <= y (pos a') /\ y (pos a') <= y (pos a) + 3).
Proof.
  intros ((Hx0 & Hx1) & (Hy0 & Hy1)) a'.
  destruct (tick_fields loadHeight keysPressed window now a) as (Hp & _).
  fold a' in Hp. rewrite Hp. cbn [x y].
  destruct (unlocked (capyState a)) eqn:Hu.
  - destruct (physics_unlocked loadHeight (capyState a) (direction a) keysPressed
                window (pos a) Hu) as (_ & _ & Hnx & Hny & _).
    rewrite Hnx, Hny.
    destruct (pressedLeft keysPressed); destruct (pressedRight keysPressed);
      destruct (pressedUp keysPressed); destruct (pressedDown keysPressed);
      cbv zeta; (split; split); math_cases; lra.
  - destruct (physics_locked loadHeight (capyState a) (direction a) keysPressed
                window (pos a) Hu) as (_ & _ & _ & Hnx & Hny).
    rewrite Hnx, Hny. (split; split); math_cases; lra.
Qed.

Lemma frame_speed_bound_witness :
  x (pos in_the_middle) - 3 <= x (pos (tick 600 {["a"; "s"]} world 0 in_the_middle))
  /\ y (pos (tick 600 {["a"; "s"]} world 0 in_the_middle)) <= y (pos in_the_middle) + 3.
Proof.
  destruct (frame_speed_bound 600 {["a"; "s"]} world 0 in_the_middle) as ((H1 & _) & (_ & H2)).
  - unfold within_margins. vm_compute. repeat split; discriminate.
  - split; assumption.
Defined.

(** X3.  In an unlocked state with exactly one of the two horizontal
    directions pressed and room for the move within the margins, [x] moves
    by 3 that way, the creature faces that way, and, the position ending
    out of the water, the frame commits [WALKING] unless food is eaten. *)
Theorem horizontal_key_frame (loadHeight : Q) (keysPressed : gset string)
    (window : Window) (now : Z) (a : App) :
  unlocked (capyState a) = true ->
  pressedLeft keysPressed <> pressedRight keysPressed ->
  let dx := if pressedRight keysPressed then 3 else - (3) in
  50 <= x (pos a) + dx ->
  x (pos a) + dx <= innerWidth window - 50 ->
  let a' := tick loadHeight keysPressed window now a in
  x (pos a') == x (pos a) + dx
  /\ direction a' = (if pressedRight keysPressed then Right else Left)
  /\ (y (pos a') <= WATER_LEVEL_Y loadHeight ->
      eaten (x (pos a')) (y (pos a')) (food a) = [] ->
      capyState a' = WALKING).
Proof.
  intros Hu Hne dx H0 H1 a'.
  destruct (tick_fields loadHeight keysPressed window now a)
    as (Hp & Hd & _ & Hc & _).
  fold a' in Hp, Hd, Hc.
  set (p := physics loadHeight (capyState a) (direction a) keysPressed window (pos a)) in *.
  destruct (physics_unlocked loadHeight (capyState a) (direction a) keysPressed
              window (pos a) Hu) as (Hnd & Hmv & Hnx & _ & Hns).
  fold p in Hnd, Hmv, Hnx, Hns.
  assert (Hx : x (pos a') = newX p) by (rewrite Hp; reflexivity).
  assert (Hy : y (pos a') = newY p) by (rewrite Hp; reflexivity).
  assert (Hw : isInWater p = Math.ltb (WATER_LEVEL_Y loadHeight) (newY p))
    by apply physics_isInWater.
  assert (Hdry : y (pos a') <= WATER_LEVEL_Y loadHeight -> isInWater p = false)
    by (intros Hland; rewrite Hw; apply MathFacts.ltb_false; rewrite <- Hy; exact Hland).
  unfold dx in *. clear dx.
  destruct (pressedLeft keysPressed); destruct (pressedRight keysPressed);
    try congruence; cbv zeta in Hnx; cbn in Hmv;
    (split; [rewrite Hx, Hnx; math_cases; lra
            | split; [rewrite Hd, Hnd; reflexivity |]]);
    intros Hland He; rewrite Hx, Hy in He;
    rewrite Hc, He, Hns, Hmv, (Hdry Hland); reflexivity.
Qed.

Lemma horizontal_key_frame_witness :
  x (pos (tick 600 {["ArrowLeft"; "ArrowUp"]} world 0 in_the_middle)) == 397
  /\ direction (tick 600 {["ArrowLeft"; "ArrowUp"]} world 0 in_the_middle) = Left
  /\ capyState (tick 600 {["ArrowLeft"; "ArrowUp"]} world 0 in_the_middle) = WALKING.
Proof.
  destruct (horizontal_key_frame 600 {["ArrowLeft"; "ArrowUp"]} world 0 in_the_middle)
    as (Hx & Hd & Hs).
  - vm_compute; reflexivity.
  - vm_compute; discriminate.
  - vm_compute; discriminate.
  - vm_compute; discriminate.
  - split; [exact Hx |]. split; [exact Hd |].
    apply Hs; [vm_compute; discriminate | vm_compute; reflexivity].
Defined.

(** X4.  The direction turns only in an unlocked state with a horizontal
    key pressed: otherwise a frame leaves it as it is. *)
Theorem direction_persists (loadHeight : Q) (keysPressed : gset string)
    (window : Window) (now : Z) (a : App) :
  unlocked (capyState a) = false
  \/ (pressedLeft keysPressed = false /\ pressedRight keysPressed = false) ->
  direction (tick loadHeight keysPressed window now a) = direction a.
Proof.
  intros H.
  destruct (tick_fields loadHeight keysPressed window now a) as (_ & Hd & _).
  rewrite Hd.
  destruct (unlocked (capyState a)) eqn:Hu.
  - destruct H as [H | [Hl Hr]]; [discriminate |].
    destruct (physics_unlocked loadHeight (capyState a) (direction a) keysPressed
                window (pos a) Hu) as (Hnd & _).
    rewrite Hnd, Hl, Hr. reflexivity.
  - apply (physics_locked loadHeight (capyState a) (direction a) keysPressed
             window (pos a) Hu).
Qed.

Lemma direction_persists_witness :
  direction (tick 600 {["w"]} world 0 in_the_middle) = Right.
Proof.
  rewrite (direction_persists 600 {["w"]} world 0 in_the_middle); [reflexivity |].
  right. split; vm_compute; reflexivity.
Defined.

(** X5.  An unlocked creature whose frame ends in the water
    ([WATER_LEVEL_Y < y]) without eating is [SWIMMING], whatever the keys;
    and while it swims both buttons are disabled: pressing sleep or
    meditate changes nothing. *)
Theorem swimming_disables_buttons (loadHeight : Q) (keysPressed : gset string)
    (window : Window) (now : Z) (a : App) :
  unlocked (capyState a) = true ->
  let a' := tick loadHeight keysPressed window now a in
  WATER_LEVEL_Y loadHeight < y (pos a') ->
  eaten (x (pos a')) (y (pos a')) (food a) = [] ->
  capyState a' = SWIMMING
  /\ step loadHeight a' ClickSleep = a'
  /\ (forall t, step loadHeight a' (ClickMeditate t) = a').
Proof.
  intros Hu a' Hwet He.
  destruct (tick_fields loadHeight keysPressed window now a)
    as (Hp & _ & _ & Hc & _).
  fold a' in Hp, Hc.
  set (p := physics loadHeight (capyState a) (direction a) keysPressed window (pos a)) in *.
  destruct (physics_unlocked loadHeight (capyState a) (direction a) keysPressed
              window (pos a) Hu) as (_ & _ & _ & _ & Hns).
  fold p in Hns.
  assert (Hw : isInWater p = Math.ltb (WATER_LEVEL_Y loadHeight) (newY p))
    by apply physics_isInWater.
  rewrite Hp in Hwet, He. cbn [x y] in Hwet, He.
  apply MathFacts.ltb_true in Hwet. rewrite <- Hw in Hwet.
  rewrite He, Hns, Hwet in Hc.
  split; [exact Hc |]. split.
  - cbn [step]. unfold sleepDisabled. rewrite Hc. reflexivity.
  - intros t. cbn [step]. unfold meditateDisabled. rewrite Hc.
    rewrite orb_true_r. reflexivity.
Qed.

Lemma swimming_disables_buttons_witness :
  capyState (tick 600 {["s"]} world 0 (set_pos (mkPosition 400 419) (initial world)))
  = SWIMMING.
Proof.
  apply (swimming_disables_buttons 600 {["s"]} world 0
           (set_pos (mkPosition 400 419) (initial world))).
  - vm_compute; reflexivity.
  - vm_compute; reflexivity.
  - vm_compute; reflexivity.
Defined.

(** ** Buttons *)

(** X6.  Pressing the enabled meditate button outside meditation enters
    [MEDITATING] and sends one request, tagged [MEDITATING] with the current
    stats, whatever the time of the last request; the busy flag it raises
    disables the button, so a second press before the call settles changes
    nothing. *)
Theorem meditate_click (loadHeight : Q) (now : Z) (a : App) :
  meditateDisabled a = false ->
  capyState a <> MEDITATING ->
  let a' := step loadHeight a (ClickMeditate now) in
  capyState a' = MEDITATING
  /\ inFlight a' = inFlight a ++ [mkRequest MEDITATING (stats a) now]
  /\ isAiLoading a' = true
  /\ lastAiCallTime a' = now
  /\ stats a' = stats a
  /\ (forall t, step loadHeight a' (ClickMeditate t) = a').
Proof.
  intros Hen Hm a'. unfold a'. cbn [step]. rewrite Hen. unfold handleMeditate.
  rewrite bool_decide_eq_false_2 by exact Hm.
  rewrite triggerThought_sent by (left; discriminate).
  repeat split.
Qed.

Lemma meditate_click_witness :
  capyState (step 600 scenario (ClickMeditate 100)) = MEDITATING
  /\ step 600 (step 600 scenario (ClickMeditate 100)) (ClickMeditate 150)
     = step 600 scenario (ClickMeditate 100).
Proof.
  destruct (meditate_click 600 100 scenario) as (Hs & _ & _ & _ & _ & Hagain).
  - vm_compute; reflexivity.
  - discriminate.
  - split; [exact Hs | apply Hagain].
Defined.

(** X7.  A whole meditation, from a state where the button is enabled and
    no call is in flight: press, the call is fulfilled, press again.  The
    creature ends in [IDLE], not in the state it was in before, with the
    answer as its thought stamped with the time of the first press; one
    request was sent and none is left in flight, the second press sent
    none, and stats, position and food are as before. *)
Theorem meditation_round_trip (loadHeight : Q) (t1 t2 : Z) (text : string) (a : App) :
  meditateDisabled a = false ->
  capyState a <> MEDITATING ->
  inFlight a = [] ->
  let a' :=
    run loadHeight [ClickMeditate t1; Settle 0 (Fulfilled text); ClickMeditate t2] a in
  capyState a' = IDLE
  /\ thought a' = Some (mkThought text t1)
  /\ isAiLoading a' = false
  /\ inFlight a' = []
  /\ lastAiCallTime a' = t1
  /\ stats a' = stats a /\ pos a' = pos a /\ food a' = food a.
Proof.
  intros Hen Hm Hin.
  assert (H1 : step loadHeight a (ClickMeditate t1)
               = set_inFlight [mkRequest MEDITATING (stats a) t1]
                   (set_lastAiCallTime t1
                      (set_isAiLoading true (set_capyState MEDITATING a)))).
  { cbn [step]. rewrite Hen. unfold handleMeditate.
    rewrite bool_decide_eq_false_2 by exact Hm.
    rewrite triggerThought_sent by (left; discriminate).
    cbn [inFlight set_capyState]. rewrite Hin. reflexivity. }
  unfold run. cbn [fold_left]. rewrite H1. cbn. repeat split.
Qed.

Lemma meditation_round_trip_witness :
  capyState (run 600 [ClickMeditate 100; Settle 0 (Fulfilled "zen"); ClickMeditate 900]
               (set_capyState WALKING scenario)) = IDLE.
Proof.
  apply (meditation_round_trip 600 100 900 "zen" (set_capyState WALKING scenario)).
  - vm_compute; reflexivity.
  - discriminate.
  - reflexivity.
Defined.

(** X8.  The sleep button changes nothing but the state.  Disabled (in
    [SWIMMING] and [MEDITATING]) it does nothing; enabled, one press puts
    the creature to sleep or wakes it to [IDLE], so two presses end in
    [IDLE], the state before the sleep not being restored, except from
    [SLEEPING], where they end in [SLEEPING] again. *)
Theorem sleep_toggle (loadHeight : Q) (a : App) :
  (sleepDisabled a = true -> step loadHeight a ClickSleep = a)
  /\ (sleepDisabled a = false ->
      step loadHeight a ClickSleep
      = set_capyState (if bool_decide (capyState a = SLEEPING) then IDLE else SLEEPING) a
      /\ step loadHeight (step loadHeight a ClickSleep) ClickSleep
         = set_capyState (if bool_decide (capyState a = SLEEPING) then SLEEPING else IDLE) a).
Proof.
  split; intros Hen; cbn [step]; rewrite Hen; [reflexivity |].
  unfold handleSleep. split; [case_bool_decide; reflexivity |].
  case_bool_decide; reflexivity.
Qed.

Lemma sleep_toggle_witness :
  step 600 (step 600 (set_capyState WALKING scenario) ClickSleep) ClickSleep
  = set_capyState IDLE scenario.
Proof.
  destruct (sleep_toggle 600 (set_capyState WALKING scenario)) as (_ & H).
  destruct H as (_ & H2); [reflexivity |].
  rewrite H2. reflexivity.
Defined.

(** ** Timers *)

Lemma set_timers_same (a : App) : set_timers (timers a) a = a.
Proof. destruct a; reflexivity. Qed.

Lemma filter_keep_all {A : Type} (keep : A -> bool) (l : list A) :
  Forall (fun t => keep t = true) l -> List.filter keep l = l.
Proof.
  induction 1 as [| t l Ht _ IH]; [reflexivity |].
  cbn [List.filter]. rewrite Ht, IH. reflexivity.
Qed.

Lemma filter_drop_all {A : Type} (keep : A -> bool) (l : list A) :
  Forall (fun t => keep t = false) l -> List.filter keep l = [].
Proof.
  induction 1 as [| t l Ht _ IH]; [reflexivity |].
  cbn [List.filter]. rewrite Ht. exact IH.
Qed.

(** X9.  A timer fires once: after the timers ran at a time, the ones left
    are exactly those due later, and running them again at that time or at
    an earlier one changes nothing. *)
Theorem timers_fire_once (now earlier : Z) (a : App) :
  (earlier <= now)%Z ->
  timers (fireTimers now a) = List.filter (fun t => (now <? fst t)%Z) (timers a)
  /\ fireTimers earlier (fireTimers now a) = fireTimers now a.
Proof.
  intros Hle.
  assert (Ht : timers (fireTimers now a)
               = List.filter (fun t => (now <? fst t)%Z) (timers a)).
  { rewrite fireTimers_timers. apply filter_ext. intros t.
    rewrite Z.ltb_antisym. reflexivity. }
  split; [exact Ht |].
  assert (Hall : Forall (fun t => (now < fst t)%Z) (timers (fireTimers now a))).
  { rewrite Ht. apply List.Forall_forall. intros t Hin. apply filter_In in Hin.
    apply Z.ltb_lt, Hin. }
  unfold fireTimers at 1.
  rewrite (filter_drop_all (fun t => (fst t <=? earlier)%Z)),
          (filter_keep_all (fun t => negb (fst t <=? earlier)%Z)).
  - cbn [fold_left]. apply set_timers_same.
  - eapply List.Forall_impl; [| exact Hall]. intros t Hlt.
    apply negb_true_iff, Z.leb_gt. cbv beta in Hlt. lia.
  - eapply List.Forall_impl; [| exact Hall]. intros t Hlt.
    apply Z.leb_gt. cbv beta in Hlt. lia.
Qed.

Lemma timers_fire_once_witness :
  fireTimers 8000 (fireTimers 8000 (tick 600 ∅ world 7000 scenario))
  = fireTimers 8000 (tick 600 ∅ world 7000 scenario).
Proof. apply (timers_fire_once 8000 8000 (tick 600 ∅ world 7000 scenario)). lia. Defined.

(** ** Thoughts *)

(** X10.  When a call in flight is fulfilled, its text becomes the thought
    whatever other calls are in flight, stamped with the time the request
    was sent, not the time of the answer; the busy flag is lowered and the
    other calls stay in flight.  The bubble shows exactly while less than
    6000 ms have passed since the request was sent: an answer that takes
    6000 ms or more is never shown. *)
Theorem fulfilled_thought (loadHeight : Q) (n : nat) (text : string) (r : Request)
    (a : App) :
  nth_error (inFlight a) n = Some r ->
  let a' := step loadHeight a (Settle n (Fulfilled text)) in
  thought a' = Some (mkThought text (requestedAt r))
  /\ isAiLoading a' = false
  /\ inFlight a' = firstn n (inFlight a) ++ skipn (S n) (inFlight a)
  /\ (forall now : Z, bubbleVisible now a' = true <-> (now - requestedAt r < 6000)%Z)
  /\ (forall now : Z, (requestedAt r + 6000 <= now)%Z -> bubbleVisible now a' = false).
Proof.
  intros Hn a'. unfold a'. cbn [step]. rewrite Hn.
  cbn [triggerThought_resume]. unfold bubbleVisible.
  cbn [thought isAiLoading inFlight set_thought set_isAiLoading set_inFlight timestamp].
  split; [reflexivity |]. split; [reflexivity |]. split; [reflexivity |]. split.
  - intros now. apply Z.ltb_lt.
  - intros now Hlate. apply Z.ltb_ge. lia.
Qed.

Lemma fulfilled_thought_witness :
  bubbleVisible 13000
    (step 600 (step 600 scenario (ClickMeditate 7000)) (Settle 0 (Fulfilled "zen")))
  = false.
Proof.
  apply (fulfilled_thought 600 0 "zen" (mkRequest MEDITATING (stats scenario) 7000)
           (step 600 scenario (ClickMeditate 7000))).
  - reflexivity.
  - vm_compute. discriminate.
Defined.

Lemma fold_set_capyState_thought (l : list (Z * CapyState)) (a : App) :
  thought (fold_left (fun a t => set_capyState (snd t) a) l a) = thought a.
Proof. revert a. induction l as [| t l IH]; intros a; simpl; [| rewrite IH]; reflexivity. Qed.

Lemma triggerThought_thought cs st now forced a :
  thought (triggerThought cs st now forced a) = thought a.
Proof. unfold triggerThought. destruct (_ && _); reflexivity. Qed.

Lemma step_thought (loadHeight : Q) (a : App) (e : Event) :
  ~ isFulfilment e -> thought (step loadHeight a e) = thought a.
Proof.
  intros He. destruct e as [k w n | n | n | | g | n o]; simpl.
  - apply (tick_fields loadHeight k w n a).
  - unfold fireTimers. rewrite fold_set_capyState_thought. reflexivity.
  - destruct (meditateDisabled a); [reflexivity |]. unfold handleMeditate.
    case_bool_decide; [reflexivity |]. rewrite triggerThought_thought. reflexivity.
  - destruct (sleepDisabled a); [reflexivity |]. unfold handleSleep.
    case_bool_decide; reflexivity.
  - reflexivity.
  - destruct (nth_error (inFlight a) n); [| reflexivity].
    destruct o; [destruct He; exact I | reflexivity].
Qed.

(** X11.  Only a fulfilled call changes the thought: frames, timers, the
    buttons, spawns and rejected calls leave it as it is. *)
Theorem thought_changes_only_by_fulfilment (loadHeight : Q) (events : list Event)
    (a : App) :
  Forall (fun e => ~ isFulfilment e) events ->
  thought (run loadHeight events a) = thought a.
Proof.
  intros Hev. revert a. induction Hev as [| e events He _ IH]; intros a; simpl;
    [reflexivity |].
  rewrite IH. apply step_thought, He.
Qed.

Lemma thought_changes_only_by_fulfilment_witness :
  thought (run 600 [ClickMeditate 7000; Frame ∅ world 7016; Settle 0 Rejected; Timers 9000]
             scenario) = None.
Proof.
  rewrite (thought_changes_only_by_fulfilment 600
             [ClickMeditate 7000; Frame ∅ world 7016; Settle 0 Rejected; Timers 9000]
             scenario); [reflexivity |].
  repeat constructor; simpl; tauto.
Defined.

(** X12.  A frame sends one request for every food item it eats, never held
    back by the 5000 ms since the last request: each is tagged [EATING] and
    carries the stats of before the frame, without the decay and the boosts
    of the frame itself.  A frame that eats raises the busy flag and sets
    the time of the last request; a frame that does not eat sends nothing
    and touches neither. *)
Theorem frame_requests (loadHeight : Q) (keysPressed : gset string)
    (window : Window) (now : Z) (a : App) :
  let a' := tick loadHeight keysPressed window now a in
  let matched := eaten (x (pos a')) (y (pos a')) (food a) in
  inFlight a' = inFlight a ++ map (fun _ => mkRequest EATING (stats a) now) matched
  /\ isAiLoading a' = match matched with [] => isAiLoading a | _ => true end
  /\ lastAiCallTime a' = match matched with [] => lastAiCallTime a | _ => now end.
Proof.
  intros a' matched.
  destruct (tick_fields loadHeight keysPressed window now a) as (Hp & _).
  fold a' in Hp.
  set (p := physics loadHeight (capyState a) (direction a) keysPressed window (pos a)) in *.
  assert (Hm : matched = eaten (newX p) (newY p) (food a))
    by (unfold matched; rewrite Hp; reflexivity).
  rewrite Hm. unfold a', tick, updatePhysics. fold p.
  cbn [runUpdates app]. rewrite filterFood_spec.
  cbn [food direction stats set_direction set_stats set_pos].
  destruct (bool_decide (nextState p ≠ capyState a));
    cbn [runUpdates runCall app];
    match goal with
    | |- context [runCalls ?c ?s ?n (flat_map (eat ?w) ?l) ?b] =>
        destruct (runCalls_eat c s n w l b)
          as (_ & _ & _ & _ & _ & _ & _ & Hi & Hl & Hla)
    end;
    rewrite Hi, Hl, Hla; repeat split.
Qed.

(** ** Spawner *)



Lemma step_food_length (loadHeight : Q) (a : App) (e : Event) :
  (length (food (step loadHeight a e))
   <= length (food a) + spawns [e])%nat.
Proof.
  destruct e as [k w n | n | n | | g | n o]; unfold spawns; simpl.
  - destruct (tick_fields loadHeight k w n a) as (_ & _ & Hf & _).
    rewrite Hf. pose proof (List.filter_length_le
      (fun f => negb (eats (newX (physics loadHeight (capyState a) (direction a) k w (pos a)))
                            (newY (physics loadHeight (capyState a) (direction a) k w (pos a))) f))
      (food a)). lia.
  - unfold fireTimers. rewrite fold_set_capyState_food. simpl. lia.
  - destruct (meditateDisabled a); [lia |]. unfold handleMeditate.
    case_bool_decide; [simpl; lia |]. rewrite triggerThought_food. simpl. lia.
  - destruct (sleepDisabled a); [lia |]. unfold handleSleep.
    case_bool_decide; simpl; lia.
  - rewrite length_app. simpl. lia.
  - destruct (nth_error (inFlight a) n); [| lia].
    destruct o; simpl; lia.
Qed.

(** X14.  Food is added by the spawner only, one item at a time at the end
    of the collection: after any events the collection holds at most the
    items it held plus one for every spawn, and a spawn keeps every item
    there was. *)
Theorem food_grows_by_spawns_only (loadHeight : Q) (events : list Event) (a : App) :
  (length (food (run loadHeight events a)) <= length (food a) + spawns events)%nat
  /\ (forall g, food (step loadHeight a (Spawn g)) = food a ++ [g]).
Proof.
  split; [| reflexivity].
  revert a. induction events as [| e events IH]; intros a; [simpl; lia |].
  change (run loadHeight (e :: events) a) with (run loadHeight events (step loadHeight a e)).
  specialize (IH (step loadHeight a e)).
  pose proof (step_food_length loadHeight a e) as He.
  assert (Hs : spawns (e :: events) = (spawns [e] + spawns events)%nat).
  { unfold spawns. simpl. destruct e; simpl; reflexivity. }
  lia.
Qed.

(** ** Frames without food *)

Lemma tick_no_food (loadHeight : Q) (keysPressed : gset string) (window : Window)
    (now : Z) (a : App) :
  food a = [] ->
  let a' := tick loadHeight keysPressed window now a in
  food a' = []
  /\ capyState a'
     = nextState (physics loadHeight (capyState a) (direction a) keysPressed window (pos a))
  /\ stats a' = updateStats (capyState a) (stats a).
Proof.
  intros Hf a'.
  destruct (tick_fields loadHeight keysPressed window now a)
    as (_ & _ & Hfood & Hc & Hs & _).
  fold a' in Hfood, Hc, Hs. rewrite Hf in Hfood, Hc, Hs.
  repeat split; assumption.
Qed.

(** X15.  With no food in the collection, frames only lower hunger: after
    any number of frames, whatever the keys and the states the creature goes
    through, a hunger that was within [0, 100] is still not negative and not
    above the hunger before, and it is below it when at least one frame ran
    and the hunger before was positive. *)
Theorem hunger_decays (loadHeight : Q) (events : list Event) (a : App) :
  Forall isFrame events ->
  food a = [] ->
  0 <= hunger (stats a) ->
  hunger (stats a) <= 100 ->
  let a' := run loadHeight events a in
  food a' = []
  /\ 0 <= hunger (stats a')
  /\ hunger (stats a') <= hunger (stats a)
  /\ (events <> [] -> 0 < hunger (stats a) -> hunger (stats a') < hunger (stats a)).
Proof.
  intros Hev. revert a.
  induction Hev as [| e events He _ IH]; intros a Hf Hh Hh100; cbv zeta.
  - cbn [run fold_left]. split; [exact Hf |]. split; [exact Hh |].
    split; [lra | intros Hne; contradiction].
  - destruct e as [k w n | | | | |]; try contradiction.
    change (run loadHeight (Frame k w n :: events) a)
      with (run loadHeight events (tick loadHeight k w n a)).
    destruct (tick_no_food loadHeight k w n a Hf) as (Hf1 & _ & Hs1).
    assert (Hh1 : hunger (stats (tick loadHeight k w n a))
                  = Math.max 0 (hunger (stats a) - 0.02))
      by (rewrite Hs1; reflexivity).
    destruct (IH (tick loadHeight k w n a) Hf1) as (Hf' & H0 & Hle & _).
    { rewrite Hh1. math_cases; lra. }
    { rewrite Hh1. math_cases; lra. }
    rewrite Hh1 in Hle.
    split; [exact Hf' |]. split; [exact H0 |].
    split; [| intros _ Hpos]; math_cases; lra.
Qed.

Lemma hunger_decays_witness :
  hunger (stats (run 600 [Frame ∅ world 0; Frame {["d"]} world 16; Frame ∅ world 32]
                   (initial world))) < 80.
Proof.
  destruct (hunger_decays 600 [Frame ∅ world 0; Frame {["d"]} world 16; Frame ∅ world 32]
              (initial world)) as (_ & _ & _ & H).
  - repeat constructor.
  - reflexivity.
  - vm_compute. discriminate.
  - vm_compute. discriminate.
  - apply H; [discriminate | vm_compute; reflexivity].
Defined.

(** X16.  A creature asleep with no food in the collection stays asleep
    through any number of frames, whatever the keys, and keeps its
    direction; its energy, within [0, 100] before, does not go down and
    stays at most 100, and it is above the energy before when at least one
    frame ran and the energy before was below 100. *)
Theorem sleep_restores_energy (loadHeight : Q) (events : list Event) (a : App) :
  Forall isFrame events ->
  capyState a = SLEEPING ->
  food a = [] ->
  0 <= energy (stats a) ->
  energy (stats a) <= 100 ->
  let a' := run loadHeight events a in
  capyState a' = SLEEPING
  /\ direction a' = direction a
  /\ energy (stats a) <= energy (stats a')
  /\ energy (stats a') <= 100
  /\ (events <> [] -> energy (stats a) < 100 -> energy (stats a) < energy (stats a')).
Proof.
  intros Hev. revert a.
  induction Hev as [| e events He _ IH]; intros a Hs Hf Hen0 Hen; cbv zeta.
  - cbn [run fold_left]. split; [exact Hs |]. split; [reflexivity |].
    split; [lra |]. split; [exact Hen | intros Hne; contradiction].
  - destruct e as [k w n | | | | |]; try contradiction.
    change (run loadHeight (Frame k w n :: events) a)
      with (run loadHeight events (tick loadHeight k w n a)).
    destruct (tick_no_food loadHeight k w n a Hf) as (Hf1 & Hc1 & Hs1).
    assert (Hl : unlocked (capyState a) = false) by (rewrite Hs; reflexivity).
    destruct (physics_locked loadHeight (capyState a) (direction a) k w (pos a) Hl)
      as (Hn & _).
    rewrite Hn, Hs in Hc1. rewrite Hs in Hs1.
    assert (He1 : energy (stats (tick loadHeight k w n a))
                  = Math.min 100 (energy (stats a) + 0.1))
      by (rewrite Hs1; reflexivity).
    assert (Hd1 : direction (tick loadHeight k w n a) = direction a).
    { destruct (tick_fields loadHeight k w n a) as (_ & Hd & _). rewrite Hd.
      apply (physics_locked loadHeight (capyState a) (direction a) k w (pos a) Hl). }
    destruct (IH (tick loadHeight k w n a) Hc1 Hf1) as (Hs' & Hd' & Hge & Hle & _).
    { rewrite He1. math_cases; lra. }
    { rewrite He1. math_cases; lra. }
    rewrite He1 in Hge.
    split; [exact Hs' |]. split; [rewrite Hd', Hd1; reflexivity |].
    split; [| split; [exact Hle | intros _ Hroom]]; math_cases; lra.
Qed.

Lemma sleep_restores_energy_witness :
  90 < energy (stats (run 600 [Frame {["d"]} world 0; Frame ∅ world 16]
                        (set_capyState SLEEPING (initial world)))).
Proof.
  destruct (sleep_restores_energy 600 [Frame {["d"]} world 0; Frame ∅ world 16]
              (set_capyState SLEEPING (initial world))) as (_ & _ & _ & _ & H).
  - repeat constructor.
  - reflexivity.
  - reflexivity.
  - vm_compute. discriminate.
  - vm_compute. discriminate.
  - apply H; [discriminate | vm_compute; reflexivity].
Defined.

(** ** Eating *)



(** ** Overlay *)

Lemma Math_round_percent (q : Q) :
  0 <= q -> q <= 100 -> (0 <= Math_round q <= 100)%Z.
Proof.
  intros H0 H1. unfold Math_round. split.
  - change 0%Z with (Qfloor 0). apply Qfloor_resp_le. lra.
  - change 100%Z with (Qfloor (100 + (1 # 2))). apply Qfloor_resp_le. lra.
Qed.

(** X18.  From the initial state on, whatever happens, the three
    percentages the overlay prints are integers from 0 to 100. *)
Theorem overlay_percentages (loadHeight : Q) (window : Window) (events : list Event) :
  let '(h, c, e) := overlay (stats (run loadHeight events (initial window))) in
  (0 <= h <= 100)%Z /\ (0 <= c <= 100)%Z /\ (0 <= e <= 100)%Z.
Proof.
  unfold overlay.
  assert (H0 : stats_ok (stats (initial window)))
    by (unfold stats_ok; cbn; repeat split; discriminate).
  destruct (run_stats_ok loadHeight events (initial window) H0)
    as ((Hh0 & Hh1) & (Hc0 & Hc1) & (He0 & He1)).
  repeat split; apply Math_round_percent; assumption.
Qed.

(** ** Window *)

(** X19.  In a window of at least 100 by 100 that does not change, a
    creature within the margins stays within them whatever happens: frames
    with any keys, timers, buttons, spawns and settled calls. *)
Theorem creature_stays_within_margins (loadHeight : Q) (window : Window)
    (events : list Event) (a : App) :
  100 <= innerWidth window ->
  100 <= innerHeight window ->
  Forall (in_window window) events ->
  within_margins window (pos a) ->
  within_margins window (pos (run loadHeight events a)).
Proof.
  intros Hw Hh Hev. revert a.
  induction Hev as [| e events He _ IH]; intros a Ha; simpl; [exact Ha |].
  apply IH, step_within_margins; assumption.
Qed.

Lemma creature_stays_within_margins_witness :
  within_margins world
    (pos (run 600 [Frame {["a"; "w"]} world 0; ClickSleep; Frame {["a"]} world 16] at_top)).
Proof.
  apply (creature_stays_within_margins 600 world
           [Frame {["a"; "w"]} world 0; ClickSleep; Frame {["a"]} world 16] at_top).
  - vm_compute; discriminate.
  - vm_compute; discriminate.
  - repeat constructor.
  - unfold within_margins. vm_compute. repeat split; discriminate.
Defined.

(** ** Keyboard *)

(** X20.  A key that goes down is pressed; when it comes up again it is not,
    whether or not it was pressed before, and every other key is as it
    was. *)
Theorem key_down_then_up (key other : string) (keysPressed : gset string) :
  has (handleKeyDown key keysPressed) key = true
  /\ has (handleKeyUp key (handleKeyDown key keysPressed)) key = false
  /\ (other <> key ->
      has (handleKeyUp key (handleKeyDown key keysPressed)) other = has keysPressed other
      /\ has (handleKeyDown key keysPressed) other = has keysPressed other).
Proof.
  unfold has, handleKeyDown, handleKeyUp.
  split; [apply bool_decide_eq_true_2, elem_of_union_l, elem_of_singleton; reflexivity |].
  split.
  - apply bool_decide_eq_false_2. rewrite elem_of_difference, elem_of_singleton.
    intros [_ Hne]. apply Hne. reflexivity.
  - intros Hne. split; apply bool_decide_ext.
    + rewrite elem_of_difference, elem_of_union, !elem_of_singleton. tauto.
    + rewrite elem_of_union, elem_of_singleton. tauto.
Qed.

Lemma key_down_then_up_witness :
  has (handleKeyUp "a" (handleKeyDown "a" {["ArrowLeft"]})) "ArrowLeft" = true.
Proof.
  destruct (key_down_then_up "a" "ArrowLeft" {["ArrowLeft"]}) as (_ & _ & H).
  destruct H as [H _]; [discriminate |].
  rewrite H. vm_compute. reflexivity.
Defined.
